(** * Secure upload page: file intake, transfer tracking, processing
      settings and completion page

    A shallow embedding of the React components of the upload workflow
    ([FileUpload.tsx], [ProfileSection.tsx], the processing-settings
    component, the completion page and the top-level [App]) followed by the
    properties established about them.

    Conventions.
    - A JavaScript string is the list of its UTF-16 code units, so that
      [length] is the JavaScript [.length].
    - An integer-valued JavaScript number below 2^53 (a file size, a progress
      percentage) is a [Z]; where the source does genuine floating-point
      arithmetic the number is an IEEE-754 binary64 value ([spec_float]).
    - A React state hook is a field of a record, a handler is a function
      from state to state, and timers are explicit entries of the state. *)

From Stdlib Require Import ZArith NArith List Bool Lia String Ascii PeanoNat.
From Stdlib Require Import Floats.SpecFloat.
Import ListNotations.

Set Default Proof Using "Type".

(* ================================================================== *)
(** * JavaScript values *)
(* ================================================================== *)

Module JS.

(** A string: its UTF-16 code units. *)
Definition jsstring := list N.

(** A string literal of the source (all of them are ASCII). *)
Definition lit (s : string) : jsstring :=
  map N_of_ascii (list_ascii_of_string s).

Fixpoint str_eqb (a b : jsstring) : bool :=
  match a, b with
  | [], [] => true
  | x :: a', y :: b' => N.eqb x y && str_eqb a' b'
  | _, _ => false
  end.

(** [Array.prototype.includes] on an array of strings. *)
Definition includes (xs : list jsstring) (x : jsstring) : bool :=
  existsb (str_eqb x) xs.

(** Truthiness of a string: non-empty. *)
Definition truthy (s : jsstring) : bool :=
  match s with [] => false | _ => true end.

(** ECMAScript WhiteSpace and LineTerminator code points, the ones
    [String.prototype.trim] strips.  All lie in the basic plane. *)
Definition is_whitespace (c : N) : bool :=
  (N.eqb c 9 || N.eqb c 10 || N.eqb c 11 || N.eqb c 12 || N.eqb c 13
   || N.eqb c 32 || N.eqb c 160 || N.eqb c 5760
   || (N.leb 8192 c && N.leb c 8202)
   || N.eqb c 8232 || N.eqb c 8233 || N.eqb c 8239 || N.eqb c 8287
   || N.eqb c 12288 || N.eqb c 65279)%bool.

Fixpoint trimStart (s : jsstring) : jsstring :=
  match s with
  | c :: s' => if is_whitespace c then trimStart s' else s
  | [] => []
  end.

Definition trimEnd (s : jsstring) : jsstring := rev (trimStart (rev s)).

Definition trim (s : jsstring) : jsstring := trimEnd (trimStart s).

(** ** Numbers: IEEE-754 binary64 *)

Definition number := spec_float.
Definition prec : Z := 53.
Definition emax : Z := 1024.

(** The number denoting an integer (exact below 2^53). *)
Definition of_Z (n : Z) : number := binary_normalize prec emax n 0 false.

Definition mul (x y : number) : number := SFmul prec emax x y.
Definition sub (x y : number) : number := SFsub prec emax x y.
Definition div (x y : number) : number := SFdiv prec emax x y.

(** The numeric literal [0.4]: the double nearest to 4/10. *)
Definition lit_0_4 : number :=
  Eval vm_compute in div (of_Z 4) (of_Z 10).

(** [Math.round]: the integer nearest to [x], a tie going towards
    +infinity; NaN, the infinities, the zeros and integral values are
    returned as they are, and a result of zero keeps the sign of [x]. *)
Definition Math_round (x : number) : number :=
  match x with
  | S754_finite s m e =>
      if (0 <=? e)%Z then x
      else
        let v2 := (2 * cond_Zopp s (Zpos m))%Z in  (* 2x, scaled by 2^-e *)
        binary_normalize prec emax
          (Z.div (v2 + Z.pow 2 (- e)) (Z.pow 2 (1 - e))) 0 s
  | _ => x
  end.

(** ** Substrings *)

Fixpoint starts_with (pat s : jsstring) : bool :=
  match pat, s with
  | [], _ => true
  | x :: pat', y :: s' => N.eqb x y && starts_with pat' s'
  | _ :: _, [] => false
  end.

(** [String.prototype.includes]: [pat] occurs somewhere in [s]. *)
Fixpoint str_includes (s pat : jsstring) : bool :=
  starts_with pat s
  || match s with
     | [] => false
     | _ :: s' => str_includes s' pat
     end.

End JS.

(* ================================================================== *)
(** * The browser's [File] *)
(* ================================================================== *)

Record File := {
  name : JS.jsstring;
  size : Z;
  type : JS.jsstring
}.

(* ================================================================== *)
(** * FileUpload.tsx *)
(* ================================================================== *)

Module FileUpload.
Import JS.

(** [status: 'uploading' | 'success' | 'error'] *)
Inductive Status := st_uploading | st_success | st_error.

Definition Status_eqb (a b : Status) : bool :=
  match a, b with
  | st_uploading, st_uploading | st_success, st_success
  | st_error, st_error => true
  | _, _ => false
  end.

Record UploadedFile := {
  id : jsstring;
  file : File;
  status : Status;
  progress : Z;
  error : option jsstring
}.

Definition ALLOWED_FILE_TYPES : list jsstring :=
  [ lit "image/png";
    lit "image/jpeg";
    lit "image/jpg";
    lit "image/gif";
    lit "image/webp";
    lit "application/pdf";
    lit "application/msword";
    lit "application/vnd.openxmlformats-officedocument.wordprocessingml.document";
    lit "text/plain";
    lit "application/zip" ].

Definition MAX_FILE_SIZE : Z := 10 * 1024 * 1024.

Definition validateFile (f : File) : option jsstring :=
  if negb (includes ALLOWED_FILE_TYPES (type f)) then
    Some (lit "File type not allowed")
  else if (size f >? MAX_FILE_SIZE)%Z then
    Some (lit "File size exceeds 10MB limit")
  else None.

(** ** The simulated transfer

    [simulateUpload fileId] starts an interval whose callback closes over
    the local variable [progress]; the interval lives in the browser, not
    in the component's state.  [cleared] records [clearInterval]. *)
Record Interval := {
  fileId : jsstring;
  counter : Z;          (* the closure's [let progress] *)
  cleared : bool
}.

Definition simulateUpload (fileId : jsstring) : Interval :=
  {| fileId := fileId; counter := 0; cleared := false |}.

(** [{ ...f, status: 'success', progress: 100 }] *)
Definition set_success (f : UploadedFile) : UploadedFile :=
  {| id := id f; file := file f; status := st_success; progress := 100;
     error := error f |}.

(** [{ ...f, progress }] *)
Definition set_progress (p : Z) (f : UploadedFile) : UploadedFile :=
  {| id := id f; file := file f; status := status f; progress := p;
     error := error f |}.

(** One firing of the interval's callback, on the current [files]. *)
Definition callback (t : Interval) (files : list UploadedFile)
  : Interval * list UploadedFile :=
  let progress := (counter t + 10)%Z in
  if (progress >=? 100)%Z then
    ({| fileId := fileId t; counter := progress; cleared := true |},
     map (fun f => if str_eqb (id f) (fileId t) then set_success f else f)
         files)
  else
    ({| fileId := fileId t; counter := progress; cleared := false |},
     map (fun f => if str_eqb (id f) (fileId t) then set_progress progress f
                   else f)
         files).

(** The timer reaches its callback only while the interval is not
    cleared. *)
Definition fire (t : Interval) (files : list UploadedFile)
  : Interval * list UploadedFile :=
  if cleared t then (t, files) else callback t files.

(** The component's [files] state together with the live intervals. *)
Record State := {
  files : list UploadedFile;
  intervals : list Interval
}.

Definition initial : State := {| files := []; intervals := [] |}.

(** A selected file with the renderings of [Date.now()] and
    [Math.random()] the browser supplies for its id. *)
Record Pick := {
  picked : File;
  now : jsstring;
  random : jsstring
}.

(** [`${file.name}-${Date.now()}-${Math.random()}`] *)
Definition make_id (p : Pick) : jsstring :=
  name (picked p) ++ lit "-" ++ now p ++ lit "-" ++ random p.

Definition intake (p : Pick) : UploadedFile :=
  match validateFile (picked p) with
  | Some e =>
      {| id := make_id p; file := picked p; status := st_error;
         progress := 0; error := Some e |}
  | None =>
      {| id := make_id p; file := picked p; status := st_uploading;
         progress := 0; error := None |}
  end.

Definition handleFiles (newFiles : option (list Pick)) (s : State) : State :=
  match newFiles with
  | None => s
  | Some fileArray =>
      let uploadedFiles := map intake fileArray in
      {| files := files s ++ uploadedFiles;
         intervals :=
           intervals s ++
           map (fun u => simulateUpload (id u))
               (filter (fun u => Status_eqb (status u) st_uploading)
                       uploadedFiles) |}
  end.

Definition removeFile (i : jsstring) (s : State) : State :=
  {| files := filter (fun f => negb (str_eqb (id f) i)) (files s);
     intervals := intervals s |}.

(** The [k]-th interval's timer fires. *)
Fixpoint fire_nth (k : nat) (ts : list Interval) (fs : list UploadedFile)
  : list Interval * list UploadedFile :=
  match ts, k with
  | [], _ => ([], fs)
  | t :: ts', O => let '(t', fs') := fire t fs in (t' :: ts', fs')
  | t :: ts', S k' =>
      let '(ts'', fs') := fire_nth k' ts' fs in (t :: ts'', fs')
  end.

Definition tick (k : nat) (s : State) : State :=
  let '(ts, fs) := fire_nth k (intervals s) (files s) in
  {| files := fs; intervals := ts |}.

(** What can happen to the component. *)
Inductive Event :=
| EvHandleFiles (newFiles : list Pick)
| EvRemoveFile (i : jsstring)
| EvTick (k : nat).

Definition step (e : Event) (s : State) : State :=
  match e with
  | EvHandleFiles ps => handleFiles (Some ps) s
  | EvRemoveFile i => removeFile i s
  | EvTick k => tick k s
  end.

Definition run (es : list Event) (s : State) : State :=
  fold_left (fun s e => step e s) es s.

End FileUpload.

(* ================================================================== *)
(** * ProfileSection.tsx *)
(* ================================================================== *)

Module ProfileSection.
Import JS.

Definition PROFILE_IMAGE_TYPES : list jsstring :=
  [ lit "image/png"; lit "image/jpeg"; lit "image/jpg"; lit "image/gif" ].

Definition MAX_PROFILE_IMAGE_SIZE : Z := 5 * 1024 * 1024.

Definition validateProfileImage (f : File) : option jsstring :=
  if negb (includes PROFILE_IMAGE_TYPES (type f)) then
    Some (lit "Only PNG, JPG, JPEG, and GIF formats are allowed")
  else if (size f >? MAX_PROFILE_IMAGE_SIZE)%Z then
    Some (lit "Image size must be less than 5MB")
  else None.

Definition DOCUMENT_TYPES : list jsstring :=
  [ lit "application/pdf";
    lit "application/msword";
    lit "application/vnd.openxmlformats-officedocument.wordprocessingml.document";
    lit "text/plain";
    lit "application/zip" ].

Record UploadedDocument := {
  id : jsstring;
  file : File;
  preview : jsstring
}.

(** The icons are single emoji, two UTF-16 code units each: page facing up
    (U+1F4C4), memo (U+1F4DD), page with curl (U+1F4C3), package (U+1F4E6)
    and paperclip (U+1F4CE). *)
Definition getFileIcon (type : jsstring) : jsstring :=
  if str_includes type (lit "pdf") then [55357; 56516]%N
  else if str_includes type (lit "word") then [55357; 56541]%N
  else if str_includes type (lit "text") then [55357; 56515]%N
  else if str_includes type (lit "zip") then [55357; 56550]%N
  else [55357; 56526]%N.

Record ProfileData := {
  fullName : jsstring;
  username : jsstring;
  email : jsstring;
  bio : jsstring
}.

(** The [errors] object, [{ [key: string]: string }]: its properties in
    insertion order. *)
Definition Errors := list (string * jsstring).

(** [{ ...prev, [k]: v }] *)
Fixpoint set_property (k : string) (v : jsstring) (o : Errors) : Errors :=
  match o with
  | [] => [(k, v)]
  | (k', v') :: o' =>
      if String.eqb k' k then (k, v) :: o'
      else (k', v') :: set_property k v o'
  end.

(** [o[k]]; [None] is [undefined]. *)
Fixpoint get_property (k : string) (o : Errors) : option jsstring :=
  match o with
  | [] => None
  | (k', v') :: o' => if String.eqb k' k then Some v' else get_property k o'
  end.

(** The hooks of the component, and the [FileReader]s that are reading a
    file ([readAsDataURL] called, [onloadend] not yet). *)
Record State := {
  profileImage : option jsstring;
  isDraggingProfile : bool;
  isDraggingDocs : bool;
  documents : list UploadedDocument;
  profileData : ProfileData;
  errors : Errors;
  reading : list File
}.

Definition initial : State :=
  {| profileImage := None; isDraggingProfile := false;
     isDraggingDocs := false; documents := [];
     profileData := {| fullName := []; username := []; email := [];
                       bio := [] |};
     errors := []; reading := [] |}.

Definition setProfileImage (v : option jsstring) (s : State) : State :=
  {| profileImage := v; isDraggingProfile := isDraggingProfile s;
     isDraggingDocs := isDraggingDocs s; documents := documents s;
     profileData := profileData s; errors := errors s;
     reading := reading s |}.

Definition setIsDraggingProfile (b : bool) (s : State) : State :=
  {| profileImage := profileImage s; isDraggingProfile := b;
     isDraggingDocs := isDraggingDocs s; documents := documents s;
     profileData := profileData s; errors := errors s;
     reading := reading s |}.

Definition setIsDraggingDocs (b : bool) (s : State) : State :=
  {| profileImage := profileImage s;
     isDraggingProfile := isDraggingProfile s; isDraggingDocs := b;
     documents := documents s; profileData := profileData s;
     errors := errors s; reading := reading s |}.

Definition setDocuments (d : list UploadedDocument) (s : State) : State :=
  {| profileImage := profileImage s;
     isDraggingProfile := isDraggingProfile s;
     isDraggingDocs := isDraggingDocs s; documents := d;
     profileData := profileData s; errors := errors s;
     reading := reading s |}.

Definition setProfileData (d : ProfileData) (s : State) : State :=
  {| profileImage := profileImage s;
     isDraggingProfile := isDraggingProfile s;
     isDraggingDocs := isDraggingDocs s; documents := documents s;
     profileData := d; errors := errors s; reading := reading s |}.

Definition setErrors (e : Errors) (s : State) : State :=
  {| profileImage := profileImage s;
     isDraggingProfile := isDraggingProfile s;
     isDraggingDocs := isDraggingDocs s; documents := documents s;
     profileData := profileData s; errors := e; reading := reading s |}.

(** [reader.readAsDataURL(file)] *)
Definition readAsDataURL (f : File) (s : State) : State :=
  {| profileImage := profileImage s;
     isDraggingProfile := isDraggingProfile s;
     isDraggingDocs := isDraggingDocs s; documents := documents s;
     profileData := profileData s; errors := errors s;
     reading := reading s ++ [f] |}.

Definition handleProfileImageChange (f : File) (s : State) : State :=
  match validateProfileImage f with
  | Some error => setErrors (set_property "profileImage" error (errors s)) s
  | None =>
      readAsDataURL f (setErrors (set_property "profileImage" [] (errors s)) s)
  end.

(** [onloadend] of the [k]-th reader in flight: [setProfileImage
    (reader.result)], where the result is the data URL, or [null] when the
    read failed. *)
Definition onloadend (k : nat) (result : option jsstring) (s : State)
  : State :=
  match nth_error (reading s) k with
  | None => s
  | Some _ =>
      setProfileImage result
        {| profileImage := profileImage s;
           isDraggingProfile := isDraggingProfile s;
           isDraggingDocs := isDraggingDocs s; documents := documents s;
           profileData := profileData s; errors := errors s;
           reading := firstn k (reading s) ++ skipn (S k) (reading s) |}
  end.

(** [e.dataTransfer.files[0]], handled when there is one. *)
Definition handleProfileDrop (f : option File) (s : State) : State :=
  let s := setIsDraggingProfile false s in
  match f with
  | Some file => handleProfileImageChange file s
  | None => s
  end.

Definition handleProfileFileInput (f : option File) (s : State) : State :=
  match f with
  | Some file => handleProfileImageChange file s
  | None => s
  end.

Definition removeProfileImage : State -> State := setProfileImage None.

Definition addDocuments (files : list FileUpload.Pick) (s : State) : State :=
  let validFiles :=
    filter (fun p => includes DOCUMENT_TYPES (type (FileUpload.picked p)))
           files in
  let newDocs :=
    map (fun p => {| id := FileUpload.make_id p;
                     file := FileUpload.picked p;
                     preview := getFileIcon (type (FileUpload.picked p)) |})
        validFiles in
  setDocuments (documents s ++ newDocs) s.

Definition handleDocumentsDrop (files : list FileUpload.Pick) (s : State)
  : State :=
  addDocuments files (setIsDraggingDocs false s).

(** [e.target.files ? Array.from(e.target.files) : []] *)
Definition handleDocumentsInput (files : option (list FileUpload.Pick))
                                (s : State) : State :=
  addDocuments (match files with Some l => l | None => [] end) s.

Definition removeDocument (i : jsstring) (s : State) : State :=
  setDocuments (filter (fun doc => negb (str_eqb (id doc) i)) (documents s)) s.

(** [console.log] and [alert]: the hooks are left as they are. *)
Definition handleSave (s : State) : State := s.

Definition handleCancel (s : State) : State :=
  setDocuments []
    (setProfileImage None
       (setProfileData {| fullName := []; username := []; email := [];
                          bio := [] |} s)).

Inductive Field := FullName | Username | Email | Bio.

(** [setProfileData(prev => ({ ...prev, [field]: value }))] *)
Definition edit (fld : Field) (v : jsstring) (s : State) : State :=
  let d := profileData s in
  setProfileData
    match fld with
    | FullName => {| fullName := v; username := username d;
                     email := email d; bio := bio d |}
    | Username => {| fullName := fullName d; username := v;
                     email := email d; bio := bio d |}
    | Email => {| fullName := fullName d; username := username d;
                  email := v; bio := bio d |}
    | Bio => {| fullName := fullName d; username := username d;
                email := email d; bio := v |}
    end s.

Inductive Event :=
| DragOverProfile | DragLeaveProfile
| DropProfile (f : option File)
| InputProfile (f : option File)
| Loaded (k : nat) (result : option jsstring)
| RemoveProfileImage
| DragOverDocs | DragLeaveDocs
| DropDocs (files : list FileUpload.Pick)
| InputDocs (files : option (list FileUpload.Pick))
| RemoveDocument (i : jsstring)
| Edit (fld : Field) (v : jsstring)
| Save
| Cancel.

Definition step (e : Event) (s : State) : State :=
  match e with
  | DragOverProfile => setIsDraggingProfile true s
  | DragLeaveProfile => setIsDraggingProfile false s
  | DropProfile f => handleProfileDrop f s
  | InputProfile f => handleProfileFileInput f s
  | Loaded k result => onloadend k result s
  | RemoveProfileImage =>
      (* the button is rendered while there is a picture *)
      match profileImage s with
      | Some (_ :: _) => removeProfileImage s
      | _ => s
      end
  | DragOverDocs => setIsDraggingDocs true s
  | DragLeaveDocs => setIsDraggingDocs false s
  | DropDocs files => handleDocumentsDrop files s
  | InputDocs files => handleDocumentsInput files s
  | RemoveDocument i => removeDocument i s
  | Edit fld v => edit fld v s
  | Save => handleSave s
  | Cancel => handleCancel s
  end.

Definition run (es : list Event) (s : State) : State :=
  fold_left (fun s e => step e s) es s.

End ProfileSection.

(* ================================================================== *)
(** * The processing-settings component *)
(* ================================================================== *)

(** [interface ProcessingConfig] *)
Module ProcessingConfig.
Record t := {
  compress : bool;
  encrypt : bool;
  password : option JS.jsstring;     (* [password?: string] *)
  outputFileName : JS.jsstring
}.

(** A property value of the configuration object. *)
Inductive value :=
| VUndefined
| VBool (b : bool)
| VString (s : JS.jsstring).

(** The own properties of the object literal that [handleSaveSettings]
    builds, in the order it writes them. *)
Definition properties (c : t) : list (string * value) :=
  [ ("encrypt"%string, VBool (encrypt c));
    ("password"%string,
      match password c with Some p => VString p | None => VUndefined end);
    ("compress"%string, VBool (compress c));
    ("outputFileName"%string, VString (outputFileName c)) ].

Definition keys (c : t) : list string := map fst (properties c).
End ProcessingConfig.

Module ProcessingSettings.
Import JS.

(** The data props; [onBack] and [onProcess] are wired by [App]. *)
Record Props := {
  fileName : jsstring;
  fileSize : Z;
  fileType : jsstring
}.

(** The four [useState] hooks. *)
Record State := {
  encryptEnabled : bool;
  password : jsstring;
  showPassword : bool;
  compressEnabled : bool
}.

Definition initial : State :=
  {| encryptEnabled := false; password := []; showPassword := false;
     compressEnabled := false |}.

Definition setEncryptEnabled (b : bool) (s : State) : State :=
  {| encryptEnabled := b; password := password s;
     showPassword := showPassword s; compressEnabled := compressEnabled s |}.

Definition setPassword (p : jsstring) (s : State) : State :=
  {| encryptEnabled := encryptEnabled s; password := p;
     showPassword := showPassword s; compressEnabled := compressEnabled s |}.

Definition setShowPassword (b : bool) (s : State) : State :=
  {| encryptEnabled := encryptEnabled s; password := password s;
     showPassword := b; compressEnabled := compressEnabled s |}.

Definition setCompressEnabled (b : bool) (s : State) : State :=
  {| encryptEnabled := encryptEnabled s; password := password s;
     showPassword := showPassword s; compressEnabled := b |}.

Definition getCompressionReduction (s : State) : number :=
  if negb (compressEnabled s) then of_Z 0 else lit_0_4.

Definition getEstimatedSize (p : Props) (s : State) : number :=
  if negb (compressEnabled s) then of_Z (fileSize p)
  else Math_round
         (mul (of_Z (fileSize p)) (sub (of_Z 1) (getCompressionReduction s))).

Definition handleSaveSettings (p : Props) (s : State) : ProcessingConfig.t :=
  {| ProcessingConfig.encrypt := encryptEnabled s;
     ProcessingConfig.password :=
       if encryptEnabled s then Some (password s) else None;
     ProcessingConfig.compress := compressEnabled s;
     ProcessingConfig.outputFileName := fileName p |}.

Definition handleReset (s : State) : State :=
  setCompressEnabled false (setPassword [] (setEncryptEnabled false s)).

Definition canProceed (s : State) : bool :=
  negb (encryptEnabled s)
  || (encryptEnabled s && (6 <=? List.length (trim (password s)))%nat).

(** ** What the component renders *)

(** [disabled={!canProceed}] on the Save Settings button. *)
Definition save_disabled (s : State) : bool := negb (canProceed s).

(** [{encryptEnabled && !canProceed && ...}]: the message
    "Please enter a valid encryption password to continue". *)
Definition shows_password_error (s : State) : bool :=
  encryptEnabled s && negb (canProceed s).

(** [{password && password.length < 6 && ...}], inside the encryption
    panel: "Password must be at least 6 characters". *)
Definition shows_short_password_hint (s : State) : bool :=
  encryptEnabled s && truthy (password s)
  && (List.length (password s) <? 6)%nat.

(** [{encryptEnabled && compressEnabled && ...}]: the note "Files will be
    first encrypted, then compressed." *)
Definition shows_processing_order (s : State) : bool :=
  encryptEnabled s && compressEnabled s.

(** ** User input *)

Inductive Input :=
| ToggleEncryption        (* the encryption [ToggleSwitch] *)
| ToggleCompression       (* the compression [ToggleSwitch] *)
| TypePassword (p : jsstring)
| ToggleShowPassword
| ClickReset.

(** [ToggleSwitch]'s [onClick]: [!disabled && onChange(!enabled)]; neither
    switch is ever given [disabled].  The password field and its eye button
    are rendered inside [{encryptEnabled && ...}] only. *)
Definition input (i : Input) (s : State) : State :=
  match i with
  | ToggleEncryption => setEncryptEnabled (negb (encryptEnabled s)) s
  | ToggleCompression => setCompressEnabled (negb (compressEnabled s)) s
  | TypePassword p => if encryptEnabled s then setPassword p s else s
  | ToggleShowPassword =>
      if encryptEnabled s then setShowPassword (negb (showPassword s)) s
      else s
  | ClickReset => handleReset s
  end.

Definition inputs (l : list Input) (s : State) : State :=
  fold_left (fun s i => input i s) l s.

(** Modelled from the spec: the [Button] component ([./ui/button]) is not
    among the sources.  It hands [onClick] and [disabled] to a DOM button,
    and a disabled button dispatches no click: an unsubmittable draft
    "performs no transition". *)
Definition Button_click {A : Type} (disabled : bool) (onClick : A)
  : option A :=
  if disabled then None else Some onClick.

(** A click on Save Settings: [onClick={handleSaveSettings}] and
    [disabled={!canProceed}].  [Some config] is the call
    [onProcess(config)]. *)
Definition click_save (p : Props) (s : State) : option ProcessingConfig.t :=
  Button_click (save_disabled s) (handleSaveSettings p s).

End ProcessingSettings.

(* ================================================================== *)
(** * The completion page *)
(* ================================================================== *)

Module CompletePage.
Import JS.

Definition download_prefix : jsstring :=
  lit "https://files.example.com/download/".

(** [`https://files.example.com/download/${fileName}`] *)
Definition fileUrl (fileName : jsstring) : jsstring :=
  download_prefix ++ fileName.

End CompletePage.

(* ================================================================== *)
(** * App *)
(* ================================================================== *)

Module App.
Import JS.

(** [type Page = "upload" | "processing" | "complete" | "profile"] *)
Inductive Page := upload | processing | complete | profile.

Record State := {
  isLoggedIn : bool;
  username : jsstring;
  currentPage : Page;
  selectedFile : option File
}.

Definition initial : State :=
  {| isLoggedIn := false; username := []; currentPage := upload;
     selectedFile := None |}.

Definition handleLogin (user : jsstring) (s : State) : State :=
  {| isLoggedIn := true; username := user; currentPage := currentPage s;
     selectedFile := selectedFile s |}.

Definition handleLogout (s : State) : State :=
  {| isLoggedIn := false; username := []; currentPage := upload;
     selectedFile := None |}.

Definition handleFileSelect (f : File) (s : State) : State :=
  {| isLoggedIn := isLoggedIn s; username := username s;
     currentPage := processing; selectedFile := Some f |}.

Definition setCurrentPage (p : Page) (s : State) : State :=
  {| isLoggedIn := isLoggedIn s; username := username s;
     currentPage := p; selectedFile := selectedFile s |}.

Definition handleProcessingBack : State -> State := setCurrentPage upload.

Definition handleProcessAnother (s : State) : State :=
  {| isLoggedIn := isLoggedIn s; username := username s;
     currentPage := upload; selectedFile := None |}.

Definition handleViewProfile : State -> State := setCurrentPage profile.

Definition handleBackToDashboard : State -> State := setCurrentPage upload.

(** The component [App] returns, with the data props it passes. *)
Inductive Screen :=
| LoginPage
| ProcessingSettings (p : ProcessingSettings.Props)
| ProfilePage
| CompletePage (fileName : jsstring)
| Dashboard.            (* the layout that holds [FileUpload] *)

Definition render (s : State) : Screen :=
  if negb (isLoggedIn s) then LoginPage
  else
    match currentPage s, selectedFile s with
    | processing, Some f =>
        ProcessingSettings
          {| ProcessingSettings.fileName := name f;
             ProcessingSettings.fileSize := size f;
             ProcessingSettings.fileType := type f |}
    | profile, _ => ProfilePage
    | complete, Some f => CompletePage (name f)
    | _, _ => Dashboard
    end.

(** ** Component-local state

    The hooks of the child that is mounted.  React keeps them while [App]
    returns the same component and drops them when it returns another
    one; the next mount starts from the hooks' initial values. *)
Inductive Local :=
| AtLogin
| AtSettings (st : ProcessingSettings.State)
| AtProfile
| AtComplete
| AtDashboard (st : FileUpload.State).

Definition mount (scr : Screen) : Local :=
  match scr with
  | LoginPage => AtLogin
  | ProcessingSettings _ => AtSettings ProcessingSettings.initial
  | ProfilePage => AtProfile
  | CompletePage _ => AtComplete
  | Dashboard => AtDashboard FileUpload.initial
  end.

Definition same_component (a b : Screen) : bool :=
  match a, b with
  | LoginPage, LoginPage
  | ProcessingSettings _, ProcessingSettings _
  | ProfilePage, ProfilePage
  | CompletePage _, CompletePage _
  | Dashboard, Dashboard => true
  | _, _ => false
  end.

(** The whole page: [App]'s hooks, the mounted child's hooks, the pending
    [setTimeout] callbacks of [handleProcessingStart] and what was written
    with [console.log]. *)
Record Sys := {
  app : State;
  local : Local;
  timeouts : nat;
  console : list ProcessingConfig.t
}.

Definition boot : Sys :=
  {| app := initial; local := mount (render initial); timeouts := 0;
     console := [] |}.

(** An update of [App]'s hooks followed by the re-render. *)
Definition update (f : State -> State) (s : Sys) : Sys :=
  let a' := f (app s) in
  {| app := a';
     local := if same_component (render (app s)) (render a')
              then local s else mount (render a');
     timeouts := timeouts s;
     console := console s |}.

(** [console.log(...)] then [setTimeout(() => setCurrentPage("complete"),
    1500)]. *)
Definition handleProcessingStart (settings : ProcessingConfig.t) (s : Sys)
  : Sys :=
  {| app := app s; local := local s; timeouts := S (timeouts s);
     console := console s ++ [settings] |}.

Definition set_local (l : Local) (s : Sys) : Sys :=
  {| app := app s; local := l; timeouts := timeouts s;
     console := console s |}.

(** What the user and the timers can do; an event whose control is not on
    the screen does nothing. *)
Inductive Event :=
| Login (user : jsstring)
| Logout
| ViewProfile
| BackToDashboard
| Upload (e : FileUpload.Event)
| ProcessFile (k : nat)          (* "Process File" on the [k]-th entry *)
| Settings (i : ProcessingSettings.Input)
| SaveSettings
| CancelSettings
| ProcessAnother
| TimeoutFires.

Definition dispatch (e : Event) (s : Sys) : Sys :=
  match e, render (app s), local s with
  | Login user, LoginPage, _ => update (handleLogin user) s
  | Logout, (Dashboard | CompletePage _), _ => update handleLogout s
  | ViewProfile, Dashboard, _ => update handleViewProfile s
  | BackToDashboard, ProfilePage, _ => update handleBackToDashboard s
  | Upload ev, Dashboard, AtDashboard st =>
      set_local (AtDashboard (FileUpload.step ev st)) s
  | ProcessFile k, Dashboard, AtDashboard st =>
      (* the button is rendered for an entry whose status is 'success' *)
      match nth_error (FileUpload.files st) k with
      | Some u =>
          if FileUpload.Status_eqb (FileUpload.status u)
               FileUpload.st_success
          then update (handleFileSelect (FileUpload.file u)) s
          else s
      | None => s
      end
  | Settings i, ProcessingSettings _, AtSettings st =>
      set_local (AtSettings (ProcessingSettings.input i st)) s
  | SaveSettings, ProcessingSettings p, AtSettings st =>
      match ProcessingSettings.click_save p st with
      | Some config => handleProcessingStart config s
      | None => s
      end
  | CancelSettings, ProcessingSettings _, _ => update handleProcessingBack s
  | ProcessAnother, CompletePage _, _ => update handleProcessAnother s
  | TimeoutFires, _, _ =>
      match timeouts s with
      | O => s
      | S n =>
          update (setCurrentPage complete)
            {| app := app s; local := local s; timeouts := n;
               console := console s |}
      end
  | _, _, _ => s
  end.

Definition run (es : list Event) (s : Sys) : Sys :=
  fold_left (fun s e => dispatch e s) es s.

End App.

(* ================================================================== *)
(** * Notions used to state the properties *)
(* ================================================================== *)

Module Locator.
Import JS.

(** The reserved characters of a URI (RFC 3986: gen-delims and
    sub-delims). *)
Definition url_reserved (c : N) : bool :=
  existsb (N.eqb c) (lit ":/?#[]@!$&'()*+,;=").

(** What follows the fixed prefix in a reference. *)
Definition name_component (reference : jsstring) : jsstring :=
  skipn (List.length CompletePage.download_prefix) reference.

(** The name component holds no reserved character as it stands. *)
Definition name_is_encoded (reference : jsstring) : bool :=
  forallb (fun c => negb (url_reserved c)) (name_component reference).

End Locator.

Module Ordering.
Import JS ProcessingConfig.

(** Some property of the configuration object holds the string
    "encrypt-then-compress". *)
Definition records_encrypt_then_compress (c : ProcessingConfig.t) : bool :=
  existsb
    (fun kv =>
       match snd kv with
       | VString s => str_eqb s (lit "encrypt-then-compress")
       | _ => false
       end)
    (properties c).

End Ordering.

Module Transfer.
Import JS FileUpload.

Fixpoint distinct (l : list jsstring) : bool :=
  match l with
  | [] => true
  | x :: l' => negb (includes l' x) && distinct l'
  end.

(** The ids made for a batch are new: different from one another, from the
    ids of the entries in the list and from the ids the running intervals
    were started for.  ([Date.now()] and [Math.random()] are the browser's;
    the source relies on them for this.) *)
Definition fresh (s : State) (ps : list Pick) : bool :=
  distinct (map make_id ps)
  && forallb
       (fun p =>
          negb (includes (map id (files s)) (make_id p))
          && negb (includes (map fileId (intervals s)) (make_id p)))
       ps.

Definition admissible (s : State) (e : Event) : bool :=
  match e with
  | EvHandleFiles ps => fresh s ps
  | _ => true
  end.

Fixpoint admissible_trace (s : State) (es : list Event) : bool :=
  match es with
  | [] => true
  | e :: es' => admissible s e && admissible_trace (step e s) es'
  end.

(** What an entry of the list looks like in each status. *)
Definition entry_ok (u : UploadedFile) : Prop :=
  match status u with
  | st_uploading => (0 <= progress u < 100)%Z
  | st_success => progress u = 100%Z
  | st_error => progress u = 0%Z
  end.

(** An interval and the entry it was started for agree. *)
Definition interval_ok (fs : list UploadedFile) (t : Interval) : Prop :=
  (0 <= counter t)%Z
  /\ (cleared t = false -> (counter t < 100)%Z)
  /\ forall u, In u fs -> id u = fileId t ->
       if cleared t then status u = st_success
       else status u = st_uploading /\ progress u = counter t.

Record Inv (s : State) : Prop := {
  inv_ids : NoDup (map id (files s));
  inv_intervals : NoDup (map fileId (intervals s));
  inv_entries : Forall entry_ok (files s);
  inv_tracked : Forall (interval_ok (files s)) (intervals s)
}.


End Transfer.

Module Estimate.

(** [floor (0.6 * n)]. *)
Definition floor_six_tenths (n : Z) : Z := (6 * n) / 10.

(** [0.6 * n] rounded to the nearest integer, [floor (0.6 * n + 1/2)]; the
    two neighbours are never equally near, [6 * n + 5] being odd. *)
Definition round_six_tenths (n : Z) : Z := (6 * n + 5) / 10.

(** The record of [SpecFloat]'s right shift after [k] steps on the
    mantissa [m]: the quotient by [2 ^ k], whether the remainder reaches
    half of [2 ^ k] (the round bit), and whether anything lies beyond that
    (the sticky bit). *)
Definition shr_inv (m k : Z) (r : shr_record) : Prop :=
  (0 <= shr_m r
   /\ 0 <= m - shr_m r * 2 ^ k < 2 ^ k
   /\ (shr_r r = true <-> 2 ^ k <= 2 * (m - shr_m r * 2 ^ k))
   /\ (shr_s r = false ->
       m - shr_m r * 2 ^ k = 0 \/ 2 * (m - shr_m r * 2 ^ k) = 2 ^ k))%Z.

End Estimate.

Module Intake.
Import JS FileUpload.

(** The validator lets the picked file through. *)
Definition accepted (p : Pick) : bool :=
  match validateFile (picked p) with
  | None => true
  | Some _ => false
  end.

(** The entry carries the validator's verdict on its own file, and its
    status is 'error' exactly when that verdict is a message. *)
Definition verdict_kept (u : UploadedFile) : Prop :=
  error u = validateFile (file u)
  /\ (status u = st_error <-> error u <> None).

(** The list once the transfer of the entry with id [i] has succeeded. *)
Definition finished (i : jsstring) (fs : list UploadedFile)
  : list UploadedFile :=
  map (fun f => if str_eqb (id f) i then set_success f else f) fs.

(** The firings an interval whose counter is [c] still needs to reach
    100. *)
Definition firings_left (c : Z) : nat := Z.to_nat ((109 - c) / 10).

End Intake.

Module Journey.
Import App.

(** An upload event is admissible when the ids it brings are new to the
    mounted [FileUpload]. *)
Definition admissible (s : Sys) (e : Event) : bool :=
  match e, render (app s), local s with
  | Upload ev, Dashboard, AtDashboard st => Transfer.admissible st ev
  | _, _, _ => true
  end.

Fixpoint admissible_trace (s : Sys) (es : list Event) : bool :=
  match es with
  | [] => true
  | e :: es' => admissible s e && admissible_trace (dispatch e s) es'
  end.

Definition dashboard_ok (l : Local) : Prop :=
  match l with
  | AtDashboard st =>
      Transfer.Inv st /\ Forall Intake.verdict_kept (FileUpload.files st)
  | _ => True
  end.

Definition selection_ok (a : State) : Prop :=
  forall f, selectedFile a = Some f -> FileUpload.validateFile f = None.

(** A configuration as the settings page can hand it over: no password
    without encryption, and with encryption a password of trimmed length at
    least 6. *)
Definition well_formed (c : ProcessingConfig.t) : Prop :=
  match ProcessingConfig.password c with
  | None => ProcessingConfig.encrypt c = false
  | Some pw =>
      ProcessingConfig.encrypt c = true
      /\ (6 <= List.length (JS.trim pw))%nat
  end.

End Journey.

Module Profile.
Import JS ProfileSection.

(** A document of the list: of a listed document type, shown with the icon
    of its kind. *)
Definition document_ok (d : UploadedDocument) : Prop :=
  In (type (file d)) DOCUMENT_TYPES
  /\ preview d = getFileIcon (type (file d))
  /\ preview d <> [55357; 56526]%N.

End Profile.

(* ================================================================== *)
(** * Properties *)
(* ================================================================== *)

(** ** Strings and arrays *)

Lemma str_eqb_eq (a b : JS.jsstring) : JS.str_eqb a b = true <-> a = b.
Proof.
  revert b; induction a as [|x a IH]; intros [|y b]; simpl;
    try (split; [discriminate | discriminate]); try tauto.
  rewrite andb_true_iff, N.eqb_eq, IH.
  split; [intros [-> ->]; reflexivity | intros H; inversion H; auto].
Qed.

Lemma str_eqb_refl (a : JS.jsstring) : JS.str_eqb a a = true.
Proof. apply str_eqb_eq; reflexivity. Qed.

Lemma str_eqb_neq (a b : JS.jsstring) : JS.str_eqb a b = false <-> a <> b.
Proof.
  rewrite <- str_eqb_eq. destruct (JS.str_eqb a b); split; congruence.
Qed.

Lemma includes_In (xs : list JS.jsstring) (x : JS.jsstring) :
  JS.includes xs x = true <-> In x xs.
Proof.
  unfold JS.includes. rewrite existsb_exists. split.
  - intros (y & Hy & E). apply str_eqb_eq in E. now subst.
  - intros H. exists x. split; [assumption | apply str_eqb_refl].
Qed.

Lemma includes_not_In (xs : list JS.jsstring) (x : JS.jsstring) :
  JS.includes xs x = false <-> ~ In x xs.
Proof.
  rewrite <- includes_In. destruct (JS.includes xs x); split; congruence.
Qed.

(** [trim] strips white space at both ends only. *)
Example trim_both_ends :
  JS.trim (JS.lit "  ab c  ") = JS.lit "ab c"
  /\ JS.trim (JS.lit "      ") = []
  /\ JS.trim ([9; 10; 13; 160; 8232; 65279] ++ JS.lit "x")%N = JS.lit "x".
Proof. repeat split. Qed.

(** [Math.round] on halves, on a value just below a half and on an
    integer. *)
Example Math_round_samples :
  let half := JS.div (JS.of_Z 1) (JS.of_Z 2) in
  JS.Math_round half = JS.of_Z 1
  /\ JS.Math_round (JS.div (JS.of_Z 5) (JS.of_Z 2)) = JS.of_Z 3
  /\ JS.Math_round (JS.div (JS.of_Z (-5)) (JS.of_Z 2)) = JS.of_Z (-2)
  /\ JS.Math_round (JS.div (JS.of_Z (-1)) (JS.of_Z 2)) = S754_zero true
  /\ JS.Math_round (SFpred JS.prec JS.emax half) = JS.of_Z 0
  /\ JS.Math_round (JS.of_Z 7) = JS.of_Z 7.
Proof. vm_compute. repeat split. Qed.

(** The literal [0.4] is 0x3FD999999999999A. *)
Example lit_0_4_bits :
  JS.lit_0_4 = S754_finite false 0x1999999999999A (-54).
Proof. reflexivity. Qed.

(** ** The validators *)

Section Validators.
Import FileUpload ProfileSection.

(** C3.  A file whose media type is not in [ALLOWED_FILE_TYPES] is
    rejected by [validateFile] with the unsupported-type message "File type
    not allowed", whatever its size: the type is tested before the size,
    so an oversized file of a disallowed type is rejected for its type. *)
Theorem validateFile_type_first (f : File) :
  ~ In (type f) ALLOWED_FILE_TYPES ->
  validateFile f = Some (JS.lit "File type not allowed").
Proof.
  intros H. apply includes_not_In in H.
  unfold validateFile. now rewrite H.
Qed.

Lemma validateFile_type_first_witness :
  let f := {| name := JS.lit "x.exe";
              size := 10 * 1024 * 1024 + 1;
              type := JS.lit "application/x-msdownload" |} in
  ~ In (type f) ALLOWED_FILE_TYPES
  /\ validateFile f = Some (JS.lit "File type not allowed").
Proof.
  intros f.
  assert (H : ~ In (type f) ALLOWED_FILE_TYPES).
  { apply includes_not_In. reflexivity. }
  split; [exact H | exact (validateFile_type_first f H)].
Defined.

(** C4.  A file of an allowed type larger than 10 MiB (10 * 1024 * 1024
    bytes) is rejected by [validateFile] with the too-large message; the
    profile-image validator has the ceiling 5 MiB and the allow-list PNG,
    JPEG, JPG, GIF: an image of one of these types above 5 MiB gets its
    too-large message and any other type its format message. *)
Theorem validate_size_ceilings (f : File) :
  (In (type f) ALLOWED_FILE_TYPES ->
   (size f > 10 * 1024 * 1024)%Z ->
   validateFile f = Some (JS.lit "File size exceeds 10MB limit"))
  /\ (In (type f) PROFILE_IMAGE_TYPES ->
      (size f > 5 * 1024 * 1024)%Z ->
      validateProfileImage f = Some (JS.lit "Image size must be less than 5MB"))
  /\ (~ In (type f) PROFILE_IMAGE_TYPES ->
      validateProfileImage f
      = Some (JS.lit "Only PNG, JPG, JPEG, and GIF formats are allowed"))
  /\ PROFILE_IMAGE_TYPES
     = [ JS.lit "image/png"; JS.lit "image/jpeg"; JS.lit "image/jpg";
         JS.lit "image/gif" ].
Proof.
  repeat split.
  - intros Ht Hs. apply includes_In in Ht.
    unfold validateFile. rewrite Ht. simpl.
    replace (size f >? MAX_FILE_SIZE)%Z with true; [reflexivity|].
    symmetry. apply Z.gtb_lt. unfold MAX_FILE_SIZE. lia.
  - intros Ht Hs. apply includes_In in Ht.
    unfold validateProfileImage. rewrite Ht. simpl.
    replace (size f >? MAX_PROFILE_IMAGE_SIZE)%Z with true; [reflexivity|].
    symmetry. apply Z.gtb_lt. unfold MAX_PROFILE_IMAGE_SIZE. lia.
  - intros Ht. apply includes_not_In in Ht.
    unfold validateProfileImage. now rewrite Ht.
Qed.

Lemma validate_size_ceilings_witness :
  let f := {| name := JS.lit "a.png";
              size := 10 * 1024 * 1024 + 1;
              type := JS.lit "image/png" |} in
  let g := {| name := JS.lit "notes.txt";
              size := 12;
              type := JS.lit "text/plain" |} in
  (In (type f) ALLOWED_FILE_TYPES /\ (size f > 10 * 1024 * 1024)%Z
   /\ validateFile f = Some (JS.lit "File size exceeds 10MB limit"))
  /\ (In (type f) PROFILE_IMAGE_TYPES /\ (size f > 5 * 1024 * 1024)%Z
      /\ validateProfileImage f
         = Some (JS.lit "Image size must be less than 5MB"))
  /\ (~ In (type g) PROFILE_IMAGE_TYPES
      /\ validateProfileImage g
         = Some (JS.lit "Only PNG, JPG, JPEG, and GIF formats are allowed")).
Proof.
  intros f g.
  assert (H1 : In (type f) ALLOWED_FILE_TYPES)
    by (apply includes_In; reflexivity).
  assert (H2 : (size f > 10 * 1024 * 1024)%Z) by (simpl; lia).
  assert (H3 : In (type f) PROFILE_IMAGE_TYPES)
    by (apply includes_In; reflexivity).
  assert (H4 : (size f > 5 * 1024 * 1024)%Z) by (simpl; lia).
  assert (H5 : ~ In (type g) PROFILE_IMAGE_TYPES)
    by (apply includes_not_In; reflexivity).
  destruct (validate_size_ceilings f) as (A & B & _ & _).
  destruct (validate_size_ceilings g) as (_ & _ & C & _).
  repeat split; auto.
Defined.

(** The boundary: exactly 10 MiB is accepted. *)
Example validateFile_at_ceiling :
  validateFile {| name := JS.lit "a.png"; size := 10 * 1024 * 1024;
                  type := JS.lit "image/png" |} = None.
Proof. reflexivity. Qed.

End Validators.

(** ** Submitting the processing settings *)

Section Submission.
Import ProcessingSettings.

Lemma trimStart_length (s : JS.jsstring) :
  (List.length (JS.trimStart s) <= List.length s)%nat.
Proof.
  induction s as [|c s IH]; simpl; [lia|].
  destruct (JS.is_whitespace c); simpl; lia.
Qed.

Lemma trim_length (s : JS.jsstring) :
  (List.length (JS.trim s) <= List.length s)%nat.
Proof.
  unfold JS.trim, JS.trimEnd. rewrite length_rev.
  etransitivity; [apply trimStart_length|].
  rewrite length_rev. apply trimStart_length.
Qed.

Lemma canProceed_encrypting (s : State) :
  encryptEnabled s = true ->
  canProceed s = (6 <=? List.length (JS.trim (password s)))%nat.
Proof. intros E. unfold canProceed. now rewrite E. Qed.

Lemma canProceed_plain (s : State) :
  encryptEnabled s = false -> canProceed s = true.
Proof. intros E. unfold canProceed. now rewrite E. Qed.

Lemma short_password_blocks (s : State) :
  encryptEnabled s = true ->
  (List.length (password s) < 6)%nat ->
  canProceed s = false.
Proof.
  intros E L. rewrite canProceed_encrypting by assumption.
  apply Nat.leb_gt. pose proof (trim_length (password s)). lia.
Qed.

(** The claim that six characters of any kind make the draft submittable
    fails: a password of six spaces has length 6, yet [canProceed] measures
    the trimmed password, the Save button stays disabled and the click
    changes nothing; the six-character hint is not shown, the request for a
    valid password is. *)
Lemma six_blanks_do_not_submit :
  let p := {| fileName := JS.lit "a.png"; fileSize := 1024;
              fileType := JS.lit "image/png" |} in
  let f := {| name := JS.lit "a.png"; size := 1024;
              type := JS.lit "image/png" |} in
  let st := {| encryptEnabled := true; password := JS.lit "      ";
               showPassword := false; compressEnabled := false |} in
  let sys := {| App.app := App.handleFileSelect f
                             (App.handleLogin (JS.lit "u") App.initial);
                App.local := App.AtSettings st;
                App.timeouts := 0; App.console := [] |} in
  encryptEnabled st = true
  /\ (6 <= List.length (password st))%nat
  /\ App.render (App.app sys) = App.ProcessingSettings p
  /\ click_save p st = None
  /\ App.dispatch App.SaveSettings sys = sys
  /\ shows_short_password_hint st = false
  /\ shows_password_error st = true.
Proof. cbv zeta. repeat split. simpl. lia. Qed.

(** C1 (amended).  While encryption is on and the password has fewer than 6
    characters, Save Settings is disabled: the click hands no configuration
    to [onProcess], leaves the whole page state as it was, and the password
    error is displayed.  Once the password is replaced by one whose trimmed
    length is at least 6, the same click hands over the configuration (with
    the password as typed) and schedules the move to the completion page,
    which the timer then performs. *)
Theorem weak_password_gate
  (sys : App.Sys) (p : Props) (st : State) (pw : JS.jsstring) :
  App.render (App.app sys) = App.ProcessingSettings p ->
  App.local sys = App.AtSettings st ->
  encryptEnabled st = true ->
  (List.length (password st) < 6)%nat ->
  (6 <= List.length (JS.trim pw))%nat ->
  (click_save p st = None
   /\ App.dispatch App.SaveSettings sys = sys
   /\ shows_password_error st = true)
  /\ (let sys1 := App.dispatch (App.Settings (TypePassword pw)) sys in
      let sys2 := App.dispatch App.SaveSettings sys1 in
      let config := handleSaveSettings p (setPassword pw st) in
      ProcessingConfig.password config = Some pw
      /\ App.console sys2 = App.console sys ++ [config]
      /\ App.timeouts sys2 = S (App.timeouts sys)
      /\ App.app sys2 = App.app sys
      /\ exists f, App.selectedFile (App.app sys) = Some f
         /\ App.render (App.app (App.dispatch App.TimeoutFires sys2))
            = App.CompletePage (name f)).
Proof.
  intros Hr Hl He Hshort Hlong.
  pose proof (short_password_blocks st He Hshort) as Hno.
  split.
  - assert (Hc : click_save p st = None).
    { unfold click_save, Button_click, save_disabled. now rewrite Hno. }
    repeat split.
    + exact Hc.
    + unfold App.dispatch. rewrite Hr, Hl, Hc. reflexivity.
    + unfold shows_password_error. now rewrite He, Hno.
  - assert (Hyes : canProceed (setPassword pw st) = true).
    { rewrite canProceed_encrypting by exact He.
      change (password (setPassword pw st)) with pw. now apply Nat.leb_le. }
    assert (H1 : App.dispatch (App.Settings (TypePassword pw)) sys
                 = App.set_local (App.AtSettings (setPassword pw st)) sys).
    { unfold App.dispatch. rewrite Hr, Hl. simpl. now rewrite He. }
    cbv zeta. rewrite H1.
    assert (H2 : App.dispatch App.SaveSettings
                   (App.set_local (App.AtSettings (setPassword pw st)) sys)
                 = App.handleProcessingStart
                     (handleSaveSettings p (setPassword pw st))
                     (App.set_local (App.AtSettings (setPassword pw st)) sys)).
    { unfold App.dispatch. simpl. rewrite Hr.
      unfold click_save, Button_click, save_disabled. now rewrite Hyes. }
    rewrite H2. simpl. rewrite He.
    repeat split.
    unfold App.render in Hr.
    destruct (App.isLoggedIn (App.app sys)) eqn:Hlog; simpl in Hr;
      [|discriminate].
    destruct (App.currentPage (App.app sys)) eqn:Hpage;
      destruct (App.selectedFile (App.app sys)) as [f|] eqn:Hsel;
      try discriminate.
    exists f. split; [reflexivity|].
    unfold App.dispatch. simpl.
    destruct (App.render (App.app sys)); simpl;
      unfold App.render; simpl; rewrite Hlog, Hsel; reflexivity.
Qed.

Lemma weak_password_gate_witness :
  let p := {| fileName := JS.lit "a.png"; fileSize := 1024;
              fileType := JS.lit "image/png" |} in
  let f := {| name := JS.lit "a.png"; size := 1024;
              type := JS.lit "image/png" |} in
  let st := {| encryptEnabled := true; password := JS.lit "abc";
               showPassword := false; compressEnabled := false |} in
  let sys := {| App.app := App.handleFileSelect f
                             (App.handleLogin (JS.lit "u") App.initial);
                App.local := App.AtSettings st;
                App.timeouts := 0; App.console := [] |} in
  click_save p st = None
  /\ App.dispatch App.SaveSettings sys = sys
  /\ App.console
       (App.dispatch App.SaveSettings
          (App.dispatch (App.Settings (TypePassword (JS.lit "abcdef"))) sys))
     = [ handleSaveSettings p (setPassword (JS.lit "abcdef") st) ].
Proof.
  intros p f st sys.
  assert (H4 : (List.length (password st) < 6)%nat) by (simpl; lia).
  assert (H5 : (6 <= List.length (JS.trim (JS.lit "abcdef")))%nat)
    by (vm_compute; lia).
  destruct (weak_password_gate sys p st (JS.lit "abcdef")
              eq_refl eq_refl eq_refl H4 H5)
    as ((A & B & _) & (_ & C & _)).
  repeat split; assumption.
Defined.

End Submission.

(** ** The submitted configuration *)

Section Configuration.
Import ProcessingSettings.

(** The claim that the submitted configuration carries the ordering
    "encrypt-then-compress" as a field fails: with both switches on, the
    object has the four properties of [ProcessingConfig] and none of them
    holds that ordering; the order is text of the settings view only. *)
Lemma no_ordering_property :
  let p := {| fileName := JS.lit "a.png"; fileSize := 1024;
              fileType := JS.lit "image/png" |} in
  let st := inputs [ToggleCompression; ToggleEncryption;
                    TypePassword (JS.lit "abcdef")] initial in
  encryptEnabled st = true /\ compressEnabled st = true
  /\ click_save p st = Some (handleSaveSettings p st)
  /\ ProcessingConfig.properties (handleSaveSettings p st)
     = [ ("encrypt"%string, ProcessingConfig.VBool true);
         ("password"%string, ProcessingConfig.VString (JS.lit "abcdef"));
         ("compress"%string, ProcessingConfig.VBool true);
         ("outputFileName"%string,
           ProcessingConfig.VString (JS.lit "a.png")) ]
  /\ Ordering.records_encrypt_then_compress (handleSaveSettings p st)
     = false.
Proof. cbv zeta. repeat split. Qed.

Lemma toggles_commute (s : State) :
  input ToggleEncryption (input ToggleCompression s)
  = input ToggleCompression (input ToggleEncryption s).
Proof. reflexivity. Qed.

(** C2 (amended).  With both switches on, in whichever order they were
    turned on, the submitted configuration has [encrypt = true] and
    [compress = true] and exactly the properties encrypt, password, compress
    and outputFileName: no property records an ordering.  The ordering
    "first encrypted, then compressed" is shown as a note of the settings
    view. *)
Theorem both_flags_configuration (p : Props) (s : State) :
  encryptEnabled s = true ->
  compressEnabled s = true ->
  let config := handleSaveSettings p s in
  ProcessingConfig.encrypt config = true
  /\ ProcessingConfig.compress config = true
  /\ ProcessingConfig.keys config
     = [ "encrypt"; "password"; "compress"; "outputFileName" ]%string
  /\ shows_processing_order s = true
  /\ (forall s0,
        handleSaveSettings p
          (input ToggleEncryption (input ToggleCompression s0))
        = handleSaveSettings p
            (input ToggleCompression (input ToggleEncryption s0))).
Proof.
  intros He Hc. cbv zeta. unfold shows_processing_order.
  simpl. rewrite He, Hc. repeat split.
Qed.

Lemma both_flags_configuration_witness :
  let p := {| fileName := JS.lit "a.png"; fileSize := 1024;
              fileType := JS.lit "image/png" |} in
  let s := inputs [ToggleEncryption; TypePassword (JS.lit "abcdef");
                   ToggleCompression] initial in
  encryptEnabled s = true /\ compressEnabled s = true
  /\ ProcessingConfig.keys (handleSaveSettings p s)
     = [ "encrypt"; "password"; "compress"; "outputFileName" ]%string.
Proof.
  intros p s.
  destruct (both_flags_configuration p s eq_refl eq_refl)
    as (_ & _ & K & _).
  split; [reflexivity|]. split; [reflexivity|]. exact K.
Defined.

(** C10.  When encryption is off at the time of the click, the submission
    goes through, the configuration handed over has no password
    ([undefined]), and two drafts that differ only in what was typed into
    the password field hand over the same configuration. *)
Theorem plain_submission_drops_password (p : Props) (s1 s2 : State) :
  encryptEnabled s1 = false ->
  encryptEnabled s2 = false ->
  compressEnabled s1 = compressEnabled s2 ->
  click_save p s1 = Some (handleSaveSettings p s1)
  /\ click_save p s1 = click_save p s2
  /\ ProcessingConfig.password (handleSaveSettings p s1) = None
  /\ In ("password"%string, ProcessingConfig.VUndefined)
        (ProcessingConfig.properties (handleSaveSettings p s1)).
Proof.
  intros E1 E2 C.
  unfold click_save, Button_click, save_disabled.
  rewrite !canProceed_plain by assumption.
  unfold handleSaveSettings, ProcessingConfig.properties. simpl.
  rewrite E1, E2, C. repeat split. right; left; reflexivity.
Qed.

Lemma plain_submission_drops_password_witness :
  let p := {| fileName := JS.lit "a.png"; fileSize := 1024;
              fileType := JS.lit "image/png" |} in
  let s1 := inputs [ToggleEncryption; TypePassword (JS.lit "hunter2!");
                    ToggleEncryption] initial in
  let s2 := initial in
  password s1 <> password s2
  /\ click_save p s1 = click_save p s2
  /\ ProcessingConfig.password (handleSaveSettings p s1) = None.
Proof.
  intros p s1 s2.
  destruct (plain_submission_drops_password p s1 s2 eq_refl eq_refl eq_refl)
    as (_ & A & B & _).
  split; [discriminate|]. split; [exact A | exact B].
Defined.

End Configuration.

(** ** The artifact reference *)

Section Reference.
Import CompletePage Locator.

(** The claim that the name is escaped fails: a name with the reserved
    characters [?] and [#] appears in the reference as it is. *)
Lemma reserved_characters_stay_raw :
  let fileName := JS.lit "a?b#c.png" in
  existsb url_reserved fileName = true
  /\ fileUrl fileName
     = JS.lit "https://files.example.com/download/a?b#c.png"
  /\ name_is_encoded (fileUrl fileName) = false.
Proof. cbv zeta. repeat split. Qed.

Lemma name_component_fileUrl (fileName : JS.jsstring) :
  name_component (fileUrl fileName) = fileName.
Proof.
  unfold name_component, fileUrl.
  rewrite skipn_app, skipn_all, Nat.sub_diag. reflexivity.
Qed.

(** C8 (amended).  The reference is the fixed prefix
    [https://files.example.com/download/] followed by the file name as it
    is, without any escaping: it is a function of the name alone, two names
    give the same reference exactly when they are equal, and a name with a
    reserved character yields a reference whose name component is not
    encoded.  The name is the selected file's own name, which is also the
    [outputFileName] of every configuration submitted for it. *)
Theorem fileUrl_verbatim (a b : JS.jsstring) :
  name_component (fileUrl a) = a
  /\ (fileUrl a = fileUrl b <-> a = b)
  /\ (existsb url_reserved a = true -> name_is_encoded (fileUrl a) = false)
  /\ (forall s fileName,
        App.render s = App.CompletePage fileName ->
        exists f, App.selectedFile s = Some f /\ fileName = name f)
  /\ (forall s p st,
        App.render s = App.ProcessingSettings p ->
        exists f, App.selectedFile s = Some f
          /\ ProcessingConfig.outputFileName
               (ProcessingSettings.handleSaveSettings p st) = name f).
Proof.
  split; [apply name_component_fileUrl|].
  split.
  { split; [|now intros ->].
    intros H. unfold fileUrl in H. now apply app_inv_head in H. }
  split.
  { intros H. unfold name_is_encoded. rewrite name_component_fileUrl.
    apply existsb_exists in H. destruct H as (c & Hc & Hr).
    destruct (forallb _ a) eqn:F; [|reflexivity].
    rewrite forallb_forall in F. specialize (F c Hc).
    rewrite Hr in F. discriminate. }
  split.
  - intros s fileName H. unfold App.render in H.
    destruct (App.isLoggedIn s); simpl in H; [|discriminate].
    destruct (App.currentPage s);
      destruct (App.selectedFile s) as [f|]; try discriminate.
    exists f. split; [reflexivity|]. now inversion H.
  - intros s p st H. unfold App.render in H.
    destruct (App.isLoggedIn s); simpl in H; [|discriminate].
    destruct (App.currentPage s);
      destruct (App.selectedFile s) as [f|]; try discriminate.
    exists f. split; [reflexivity|]. inversion H. reflexivity.
Qed.

Lemma fileUrl_verbatim_witness :
  let a := JS.lit "a b&c.png" in
  existsb url_reserved a = true
  /\ name_is_encoded (fileUrl a) = false
  /\ name_component (fileUrl a) = a.
Proof.
  intros a.
  destruct (fileUrl_verbatim a a) as (N & _ & E & _).
  split; [reflexivity|]. split; [exact (E eq_refl) | exact N].
Defined.

End Reference.

(** ** Restart *)

Section Restart.
Import App.

(** C9.  From the completion page, "Process Another File" leads to the
    dashboard on page [upload] with no selected file; [FileUpload] is
    mounted afresh, so its list of candidates is empty and no interval is
    running, and no settings draft exists any more.  This holds whatever
    configuration was submitted before. *)
Theorem process_another_resets (s : Sys) (fileName : JS.jsstring) :
  render (app s) = CompletePage fileName ->
  let s' := dispatch ProcessAnother s in
  render (app s') = Dashboard
  /\ currentPage (app s') = upload
  /\ selectedFile (app s') = None
  /\ local s' = AtDashboard FileUpload.initial
  /\ FileUpload.files FileUpload.initial = []
  /\ (forall st, local s' <> AtSettings st).
Proof.
  intros H. cbv zeta. unfold dispatch. rewrite H.
  unfold update. rewrite H.
  assert (L : isLoggedIn (app s) = true).
  { unfold render in H. destruct (isLoggedIn (app s)); [reflexivity|].
    discriminate. }
  assert (R : render (handleProcessAnother (app s)) = Dashboard).
  { unfold render, handleProcessAnother. simpl. now rewrite L. }
  simpl. rewrite R. simpl.
  repeat split. intros st. discriminate.
Qed.

Lemma process_another_resets_witness :
  let f := {| name := JS.lit "a.png"; size := 1024;
              type := JS.lit "image/png" |} in
  let pick := {| FileUpload.picked := f; FileUpload.now := JS.lit "17";
                 FileUpload.random := JS.lit "0.5" |} in
  let s :=
    run ([ Login (JS.lit "u"); Upload (FileUpload.EvHandleFiles [pick]) ]
         ++ repeat (Upload (FileUpload.EvTick 0)) 10
         ++ [ ProcessFile 0;
              Settings ProcessingSettings.ToggleEncryption;
              Settings (ProcessingSettings.TypePassword (JS.lit "abcdef"));
              Settings ProcessingSettings.ToggleCompression;
              SaveSettings; TimeoutFires ]) boot in
  render (app s) = CompletePage (JS.lit "a.png")
  /\ local (dispatch ProcessAnother s) = AtDashboard FileUpload.initial
  /\ selectedFile (app (dispatch ProcessAnother s)) = None.
Proof.
  intros f pick s.
  assert (H : render (app s) = CompletePage (JS.lit "a.png"))
    by reflexivity.
  destruct (process_another_resets s (JS.lit "a.png") H)
    as (_ & _ & A & B & _).
  split; [exact H|]. split; [exact B | exact A].
Defined.

(** The whole workflow on one file: accepted, transferred, submitted with
    no switch on, completed. *)
Example workflow_a_png :
  let f := {| name := JS.lit "a.png"; size := 1024;
              type := JS.lit "image/png" |} in
  let pick := {| FileUpload.picked := f; FileUpload.now := JS.lit "17";
                 FileUpload.random := JS.lit "0.5" |} in
  let s :=
    run ([ Login (JS.lit "u"); Upload (FileUpload.EvHandleFiles [pick]) ]
         ++ repeat (Upload (FileUpload.EvTick 0)) 10
         ++ [ ProcessFile 0; SaveSettings; TimeoutFires ]) boot in
  FileUpload.validateFile f = None
  /\ console s
     = [ {| ProcessingConfig.compress := false;
            ProcessingConfig.encrypt := false;
            ProcessingConfig.password := None;
            ProcessingConfig.outputFileName := JS.lit "a.png" |} ]
  /\ render (app s) = CompletePage (JS.lit "a.png")
  /\ CompletePage.fileUrl (JS.lit "a.png")
     = JS.lit "https://files.example.com/download/a.png".
Proof. cbv zeta. repeat split. Qed.

End Restart.

(** ** The transfer tracker *)

Section Tracker.
Import JS FileUpload Transfer.


Lemma fire_ids (t : Interval) (fs : list UploadedFile) :
  map id (snd (fire t fs)) = map id fs.
Proof.
  unfold fire, callback. destruct (cleared t); [reflexivity|].
  destruct (counter t + 10 >=? 100)%Z; simpl; rewrite map_map;
    apply map_ext; intros u; destruct (str_eqb (id u) (fileId t));
    reflexivity.
Qed.


(** [fire_nth] fires the interval at position [k], if there is one. *)
Lemma fire_nth_spec (k : nat) (ts : list Interval) (fs : list UploadedFile) :
  match nth_error ts k with
  | None => fire_nth k ts fs = (ts, fs)
  | Some t =>
      exists l1 l2,
        ts = l1 ++ t :: l2
        /\ fire_nth k ts fs = (l1 ++ fst (fire t fs) :: l2, snd (fire t fs))
  end.
Proof.
  revert k; induction ts as [|t0 ts IH]; intros k.
  - destruct k; reflexivity.
  - destruct k as [|k]; simpl.
    + exists [], ts. split; [reflexivity|].
      destruct (fire t0 fs); reflexivity.
    + specialize (IH k). destruct (nth_error ts k) as [t|].
      * destruct IH as (l1 & l2 & -> & E). exists (t0 :: l1), l2.
        split; [reflexivity|]. rewrite E. reflexivity.
      * rewrite IH. reflexivity.
Qed.


Lemma tick_ids (k : nat) (s : State) :
  map id (files (tick k s)) = map id (files s).
Proof.
  unfold tick. pose proof (fire_nth_spec k (intervals s) (files s)) as H.
  destruct (nth_error (intervals s) k) as [t|].
  - destruct H as (l1 & l2 & E & ->). simpl. apply fire_ids.
  - now rewrite H.
Qed.







Lemma distinct_NoDup (l : list jsstring) : distinct l = true -> NoDup l.
Proof.
  induction l as [|x l IH]; simpl; intros H; [constructor|].
  apply andb_true_iff in H. destruct H as [H1 H2].
  apply negb_true_iff, includes_not_In in H1.
  constructor; auto.
Qed.

(** Entries are told apart by their ids. *)
Lemma same_id_same_entry (fs : list UploadedFile) (a b : UploadedFile) :
  NoDup (map id fs) -> In a fs -> In b fs -> id a = id b -> a = b.
Proof.
  intros N. induction fs as [|u fs IH]; simpl; [contradiction|].
  inversion N as [|? ? Hu N']; subst. intros Ha Hb E.
  destruct Ha as [->|Ha], Hb as [->|Hb]; auto.
  - exfalso. apply Hu. rewrite E. now apply in_map.
  - exfalso. apply Hu. rewrite <- E. now apply in_map.
Qed.

Lemma filter_keeps_ids_distinct
      (keep : UploadedFile -> bool) (fs : list UploadedFile) :
  NoDup (map id fs) -> NoDup (map id (filter keep fs)).
Proof.
  intros N. induction fs as [|u fs IH]; simpl; [constructor|].
  inversion N as [|? ? Hu N']; subst.
  destruct (keep u); simpl; auto.
  constructor; auto.
  intros H. apply Hu. apply in_map_iff in H. destruct H as (y & E & Hy).
  apply filter_In in Hy. apply in_map_iff. exists y. tauto.
Qed.

Lemma fresh_spec (s : State) (ps : list Pick) :
  fresh s ps = true ->
  NoDup (map make_id ps)
  /\ forall p, In p ps ->
       ~ In (make_id p) (map id (files s))
       /\ ~ In (make_id p) (map fileId (intervals s)).
Proof.
  unfold fresh. rewrite andb_true_iff, forallb_forall.
  intros [D F]. split; [now apply distinct_NoDup|].
  intros p Hp. specialize (F p Hp). apply andb_true_iff in F.
  destruct F as [F1 F2].
  apply negb_true_iff, includes_not_In in F1.
  apply negb_true_iff, includes_not_In in F2. now split.
Qed.

Lemma intake_id (p : Pick) : id (intake p) = make_id p.
Proof. unfold intake. destruct (validateFile (picked p)); reflexivity. Qed.

Lemma intake_ok (p : Pick) :
  progress (intake p) = 0%Z /\ status (intake p) <> st_success.
Proof.
  unfold intake. destruct (validateFile (picked p)); simpl; split;
    try reflexivity; discriminate.
Qed.

Lemma Status_eqb_eq (a b : Status) : Status_eqb a b = true <-> a = b.
Proof. destruct a, b; simpl; split; congruence. Qed.

Lemma Inv_initial : Inv initial.
Proof. constructor; simpl; constructor. Qed.

Lemma Inv_handleFiles (s : State) (ps : list Pick) :
  Inv s -> fresh s ps = true -> Inv (handleFiles (Some ps) s).
Proof.
  intros [I1 I2 I3 I4] F. apply fresh_spec in F. destruct F as [D F].
  assert (Eid : map id (map intake ps) = map make_id ps).
  { rewrite map_map. apply map_ext. apply intake_id. }
  constructor; simpl.
  - rewrite map_app, Eid. apply NoDup_app; auto.
    intros i Hi Hn. apply in_map_iff in Hn. destruct Hn as (p & <- & Hp).
    now apply (proj1 (F p Hp)).
  - rewrite map_app, map_map. simpl.
    apply NoDup_app; auto.
    + change (fun x : UploadedFile => id x) with id.
      apply filter_keeps_ids_distinct. rewrite Eid. exact D.
    + intros i Hi Hn. apply in_map_iff in Hn. destruct Hn as (u & <- & Hu).
      apply filter_In in Hu. destruct Hu as [Hu _].
      apply in_map_iff in Hu. destruct Hu as (p & <- & Hp).
      rewrite intake_id in Hi. now apply (proj2 (F p Hp)).
  - apply Forall_app. split; [assumption|].
    apply Forall_map, Forall_forall. intros p _. unfold entry_ok.
    destruct (intake_ok p) as [E1 E2].
    destruct (status (intake p)); [lia | congruence | assumption].
  - apply Forall_app. split.
    + rewrite Forall_forall in *. intros t Ht.
      destruct (I4 t Ht) as (A & B & C). repeat split; auto.
      intros u Hu E. apply in_app_or in Hu.
      destruct Hu as [Hu|Hu]; [now apply C|].
      exfalso. apply in_map_iff in Hu. destruct Hu as (p & <- & Hp).
      rewrite intake_id in E. apply (proj2 (F p Hp)). rewrite E.
      now apply in_map.
    + apply Forall_map, Forall_forall. intros u0 Hu0.
      apply filter_In in Hu0. destruct Hu0 as [Hu0 S0].
      apply Status_eqb_eq in S0.
      unfold interval_ok. simpl.
      split; [lia|]. split; [lia|].
      intros u Hu E. apply in_app_or in Hu. destruct Hu as [Hu|Hu].
      { exfalso. apply in_map_iff in Hu0. destruct Hu0 as (p & <- & Hp).
        rewrite intake_id in E. apply (proj1 (F p Hp)). rewrite <- E.
        now apply in_map. }
      assert (u = u0)
        by (apply (same_id_same_entry (map intake ps)); auto; now rewrite Eid).
      subst u. split; [assumption|].
      apply in_map_iff in Hu0. destruct Hu0 as (p & <- & _).
      apply intake_ok.
Qed.

Lemma Inv_removeFile (s : State) (i : jsstring) :
  Inv s -> Inv (removeFile i s).
Proof.
  intros [I1 I2 I3 I4]. constructor; simpl.
  - now apply filter_keeps_ids_distinct.
  - assumption.
  - rewrite Forall_forall in *. intros u Hu. apply filter_In in Hu.
    now apply I3.
  - rewrite Forall_forall in *. intros t Ht.
    destruct (I4 t Ht) as (A & B & C). repeat split; auto.
    intros u Hu. apply filter_In in Hu. now apply C.
Qed.

Lemma interval_ok_untouched
      (g : UploadedFile -> UploadedFile) (fs : list UploadedFile)
      (t0 : Interval) :
  (forall u, id (g u) = id u) ->
  (forall u, id u = fileId t0 -> g u = u) ->
  interval_ok fs t0 -> interval_ok (map g fs) t0.
Proof.
  intros Gid Gfix (A & B & C). repeat split; auto.
  intros u' Hu' E. apply in_map_iff in Hu'. destruct Hu' as (u & <- & Hu).
  rewrite Gid in E. rewrite (Gfix u E). now apply C.
Qed.

(** The list update of a callback: [upd] on the entries with the interval's
    id. *)
Lemma callback_preserves
      (upd : UploadedFile -> UploadedFile) (t t' : Interval)
      (l1 l2 : list Interval) (fs : list UploadedFile) :
  let g := fun f => if str_eqb (id f) (fileId t) then upd f else f in
  (forall u, id (upd u) = id u) ->
  fileId t' = fileId t ->
  (0 <= counter t')%Z ->
  (cleared t' = false -> (counter t' < 100)%Z) ->
  (forall u, status u = st_uploading ->
     entry_ok (upd u)
     /\ if cleared t' then status (upd u) = st_success
        else status (upd u) = st_uploading /\ progress (upd u) = counter t') ->
  cleared t = false ->
  Inv {| files := fs; intervals := l1 ++ t :: l2 |} ->
  Inv {| files := map g fs; intervals := l1 ++ t' :: l2 |}.
Proof.
  intros g Uid Tid C0 C100 Hupd Hlive [I1 I2 I3 I4]. simpl in *.
  assert (Gid : forall u, id (g u) = id u).
  { intros u. unfold g. destruct (str_eqb (id u) (fileId t)); auto. }
  apply Forall_app in I4. destruct I4 as [I4a I4b].
  inversion I4b as [|? ? (_ & _ & Ht) I4c]; subst. rewrite Hlive in Ht.
  rewrite map_app in I2. simpl in I2.
  pose proof (NoDup_remove_2 _ _ _ I2) as Hother.
  assert (Hfix : forall t0, In t0 (l1 ++ l2) ->
                 forall u, id u = fileId t0 -> g u = u).
  { intros t0 Ht0 u E. unfold g.
    destruct (str_eqb (id u) (fileId t)) eqn:Q; [|reflexivity].
    exfalso. apply str_eqb_eq in Q. apply Hother.
    rewrite <- map_app. rewrite <- Q, E. now apply in_map. }
  constructor; simpl.
  - rewrite map_map. erewrite map_ext; [exact I1|]. exact Gid.
  - rewrite map_app. simpl. now rewrite Tid.
  - apply Forall_map. rewrite Forall_forall in *. intros u Hu. unfold g.
    destruct (str_eqb (id u) (fileId t)) eqn:Q; [|now apply I3].
    apply str_eqb_eq in Q. apply Hupd. now apply Ht.
  - apply Forall_app. split; [|constructor].
    + rewrite Forall_forall in *. intros t0 Ht0.
      apply interval_ok_untouched; auto.
      apply Hfix. apply in_or_app. now left.
    + repeat split; auto.
      intros u' Hu' E. apply in_map_iff in Hu'. destruct Hu' as (u & <- & Hu).
      rewrite Gid, Tid in E. unfold g.
      rewrite (proj2 (str_eqb_eq _ _) E).
      apply Hupd. now apply Ht.
    + rewrite Forall_forall in *. intros t0 Ht0.
      apply interval_ok_untouched; auto.
      apply Hfix. apply in_or_app. now right.
Qed.

Lemma Inv_fire (t : Interval) (l1 l2 : list Interval)
      (fs : list UploadedFile) :
  Inv {| files := fs; intervals := l1 ++ t :: l2 |} ->
  Inv {| files := snd (fire t fs);
         intervals := l1 ++ fst (fire t fs) :: l2 |}.
Proof.
  intros I. unfold fire. destruct (cleared t) eqn:Hc; [exact I|].
  assert (Ht : interval_ok fs t).
  { destruct I as [_ _ _ I4]. simpl in I4. now apply Forall_elt in I4. }
  destruct Ht as (T0 & T100 & _).
  unfold callback. destruct (counter t + 10 >=? 100)%Z eqn:Hge; simpl.
  - apply callback_preserves; simpl;
      [reflexivity | reflexivity | lia | discriminate | | exact Hc | exact I].
    intros u _. split; reflexivity.
  - assert (Hlt : (counter t + 10 < 100)%Z).
    { rewrite Z.geb_leb in Hge. apply Z.leb_gt in Hge. lia. }
    apply callback_preserves; simpl;
      [reflexivity | reflexivity | lia | intros _; exact Hlt | | exact Hc
      | exact I].
    intros u Hu. unfold entry_ok. simpl. rewrite Hu. repeat split; lia.
Qed.

Lemma Inv_tick (k : nat) (s : State) : Inv s -> Inv (tick k s).
Proof.
  destruct s as [fs ts]. intros I. unfold tick. simpl.
  pose proof (fire_nth_spec k ts fs) as H.
  destruct (nth_error ts k) as [t|].
  - destruct H as (l1 & l2 & E & ->). apply Inv_fire. now rewrite <- E.
  - now rewrite H.
Qed.

Lemma Inv_step (e : Event) (s : State) :
  Inv s -> admissible s e = true -> Inv (step e s).
Proof.
  intros I A. destruct e as [ps|i|k]; simpl in *.
  - now apply Inv_handleFiles.
  - now apply Inv_removeFile.
  - now apply Inv_tick.
Qed.

Lemma Inv_run (es : list Event) (s : State) :
  Inv s -> admissible_trace s es = true -> Inv (run es s).
Proof.
  revert s; induction es as [|e es IH]; intros s I A; [exact I|].
  simpl in A. apply andb_true_iff in A. destruct A as [A1 A2].
  simpl. apply IH; [now apply Inv_step | exact A2].
Qed.

Lemma entry_ok_range (u : UploadedFile) :
  entry_ok u ->
  (0 <= progress u <= 100)%Z /\ (status u = st_success -> progress u = 100%Z).
Proof.
  unfold entry_ok. destruct (status u); intros H; split;
    try lia; discriminate.
Qed.

Lemma fire_monotone (t : Interval) (l1 l2 : list Interval)
      (fs : list UploadedFile) (u u' : UploadedFile) :
  Inv {| files := fs; intervals := l1 ++ t :: l2 |} ->
  In u fs -> In u' (snd (fire t fs)) -> id u' = id u ->
  (progress u <= progress u')%Z /\ (status u <> st_uploading -> u' = u).
Proof.
  intros [I1 I2 I3 I4] Hu Hu' E. simpl in *.
  apply Forall_elt in I4. destruct I4 as (_ & _ & Ht).
  rewrite Forall_forall in I3. pose proof (I3 u Hu) as Hok.
  unfold fire in Hu'. destruct (cleared t) eqn:Hc.
  { assert (u' = u) by (apply (same_id_same_entry fs); auto).
    subst. split; [lia | reflexivity]. }
  assert (G : forall upd, (forall x, id (upd x) = id x) ->
            In u' (map (fun f => if str_eqb (id f) (fileId t)
                                 then upd f else f) fs) ->
            u' = if str_eqb (id u) (fileId t) then upd u else u).
  { intros upd Uid H. apply in_map_iff in H. destruct H as (u0 & <- & H0).
    assert (u0 = u).
    { apply (same_id_same_entry fs); auto. rewrite <- E.
      destruct (str_eqb (id u0) (fileId t)); [now rewrite Uid | reflexivity]. }
    now subst. }
  unfold callback in Hu'.
  destruct (str_eqb (id u) (fileId t)) eqn:Q.
  - apply str_eqb_eq in Q. destruct (Ht u Hu Q) as [Su Pu].
    unfold entry_ok in Hok. rewrite Su in Hok.
    destruct (counter t + 10 >=? 100)%Z; simpl in Hu';
      apply G in Hu'; try reflexivity; subst u'; simpl;
      (split; [lia | congruence]).
  - destruct (counter t + 10 >=? 100)%Z; simpl in Hu';
      apply G in Hu'; try reflexivity; subst u';
      (split; [lia | reflexivity]).
Qed.

Lemma step_monotone (e : Event) (s : State) (u u' : UploadedFile) :
  Inv s -> admissible s e = true ->
  In u (files s) -> In u' (files (step e s)) -> id u' = id u ->
  (progress u <= progress u')%Z /\ (status u <> st_uploading -> u' = u).
Proof.
  intros I A Hu Hu' E.
  assert (Same : In u' (files s) -> u' = u).
  { intros H. apply (same_id_same_entry (files s)); auto. apply I. }
  destruct e as [ps|i|k]; simpl in *.
  - apply in_app_or in Hu'. destruct Hu' as [Hu'|Hu'].
    + rewrite (Same Hu'). split; [lia | reflexivity].
    + exfalso. apply fresh_spec in A. destruct A as [_ F].
      apply in_map_iff in Hu'. destruct Hu' as (p & <- & Hp).
      rewrite intake_id in E. apply (proj1 (F p Hp)). rewrite E.
      now apply in_map.
  - apply filter_In in Hu'. rewrite (Same (proj1 Hu')).
    split; [lia | reflexivity].
  - destruct s as [fs ts]. unfold tick in Hu'. simpl in *.
    pose proof (fire_nth_spec k ts fs) as H.
    destruct (nth_error ts k) as [t|].
    + destruct H as (l1 & l2 & Ets & H). rewrite H in Hu'. simpl in Hu'.
      apply (fire_monotone t l1 l2 fs); auto. now rewrite <- Ets.
    + rewrite H in Hu'. simpl in Hu'. rewrite (Same Hu').
      split; [lia | reflexivity].
Qed.

(** The claim made of every transfer fails when an id is handed out twice
    (the same file picked again while [Date.now()] and [Math.random()]
    return what they returned before): the callback of the second interval
    rewrites every entry that carries the id.  An entry that stood at 20
    while uploading drops to 10, and an entry that had succeeded at 100 is
    rewritten to 10 with its status still 'success'.  Every event of the
    two runs is one the component accepts; only the ids are not new. *)
Lemma shared_id_breaks_progress :
  let pick := {| picked := {| name := JS.lit "a.png"; size := 1024;
                              type := JS.lit "image/png" |};
                 now := JS.lit "17"; random := JS.lit "0.5" |} in
  let view := fun s => map (fun u => (status u, progress u)) (files s) in
  let started := [EvHandleFiles [pick]; EvTick 0; EvTick 0;
                  EvHandleFiles [pick]] in
  let done := EvHandleFiles [pick] :: repeat (EvTick 0) 10
              ++ [EvHandleFiles [pick]] in
  admissible_trace initial started = false
  /\ admissible_trace initial done = false
  /\ view (run started initial) = [ (st_uploading, 20%Z); (st_uploading, 0%Z) ]
  /\ view (step (EvTick 1) (run started initial))
     = [ (st_uploading, 10%Z); (st_uploading, 10%Z) ]
  /\ view (run done initial) = [ (st_success, 100%Z); (st_uploading, 0%Z) ]
  /\ view (step (EvTick 1) (run done initial))
     = [ (st_success, 10%Z); (st_uploading, 10%Z) ]
  /\ ~ (forall es : list Event,
          let s := run es initial in
          (forall u, In u (files s) ->
             (0 <= progress u <= 100)%Z
             /\ (status u = st_success -> progress u = 100%Z))
          /\ (forall e u u',
                In u (files s) -> In u' (files (step e s)) -> id u' = id u ->
                (progress u <= progress u')%Z
                /\ (status u <> st_uploading -> u' = u))).
Proof.
  cbv zeta.
  split; [reflexivity|]. split; [reflexivity|]. split; [reflexivity|].
  split; [reflexivity|]. split; [reflexivity|]. split; [reflexivity|].
  intros H.
  pose (pick := {| picked := {| name := JS.lit "a.png"; size := 1024;
                                type := JS.lit "image/png" |};
                   now := JS.lit "17"; random := JS.lit "0.5" |}).
  destruct (H (EvHandleFiles [pick] :: repeat (EvTick 0) 10
               ++ [EvHandleFiles [pick]; EvTick 1])) as [H1 _].
  vm_compute in H1.
  destruct (H1 _ (or_introl eq_refl)) as [_ H2].
  specialize (H2 eq_refl). discriminate H2.
Qed.

(** C6 (amended).  Along every run of the component from its initial state
    in which the ids handed out are new, each entry's progress is an
    integer between 0 and 100, and is exactly 100 once its status is
    'success'; and across
    any further step (a batch of files, a removal, a timer firing) the
    entry that keeps an id has a progress at least as large as before, and
    is not changed at all once its status is 'success' or 'error'. *)
Theorem progress_discipline (es : list Event) :
  admissible_trace initial es = true ->
  let s := run es initial in
  (forall u, In u (files s) ->
     (0 <= progress u <= 100)%Z
     /\ (status u = st_success -> progress u = 100%Z))
  /\ (forall e u u',
        admissible s e = true ->
        In u (files s) -> In u' (files (step e s)) -> id u' = id u ->
        (progress u <= progress u')%Z
        /\ (status u <> st_uploading -> u' = u)).
Proof.
  intros A. cbv zeta.
  pose proof (Inv_run es initial Inv_initial A) as I.
  split.
  - intros u Hu. apply entry_ok_range.
    pose proof (inv_entries _ I) as H. rewrite Forall_forall in H.
    now apply H.
  - intros e u u' Ae Hu Hu' E. now apply (step_monotone e (run es initial)).
Qed.

Lemma progress_discipline_witness :
  let png := {| picked := {| name := JS.lit "a.png"; size := 1024;
                             type := JS.lit "image/png" |};
                now := JS.lit "17"; random := JS.lit "0.5" |} in
  let exe := {| picked := {| name := JS.lit "x.exe"; size := 1024;
                             type := JS.lit "application/x-msdownload" |};
                now := JS.lit "17"; random := JS.lit "0.25" |} in
  let pdf := {| picked := {| name := JS.lit "b.pdf"; size := 2048;
                             type := JS.lit "application/pdf" |};
                now := JS.lit "18"; random := JS.lit "0.75" |} in
  let es := [EvHandleFiles [png; exe]; EvTick 0; EvTick 0;
             EvRemoveFile (make_id exe); EvHandleFiles [pdf]]
            ++ repeat (EvTick 0) 9 ++ [EvTick 1] in
  admissible_trace initial es = true
  /\ map (fun u => (status u, progress u)) (files (run es initial))
     = [ (st_success, 100%Z); (st_uploading, 10%Z) ]
  /\ (forall u, In u (files (run es initial)) ->
        (0 <= progress u <= 100)%Z
        /\ (status u = st_success -> progress u = 100%Z)).
Proof.
  intros png exe pdf es.
  assert (A : admissible_trace initial es = true) by reflexivity.
  split; [exact A|]. split; [reflexivity|].
  exact (proj1 (progress_discipline es A)).
Defined.

(** A transfer that is left alone reaches 'success' at 100 with the tenth
    firing, and the cleared interval changes nothing afterwards. *)
Example transfer_completes :
  let png := {| picked := {| name := JS.lit "a.png"; size := 1024;
                             type := JS.lit "image/png" |};
                now := JS.lit "17"; random := JS.lit "0.5" |} in
  let after n := run (EvHandleFiles [png] :: repeat (EvTick 0) n) initial in
  map (fun u => (status u, progress u)) (files (after 0))
  = [ (st_uploading, 0%Z) ]
  /\ map (fun u => (status u, progress u)) (files (after 9))
     = [ (st_uploading, 90%Z) ]
  /\ map (fun u => (status u, progress u)) (files (after 10))
     = [ (st_success, 100%Z) ]
  /\ after 11 = after 10.
Proof. cbv zeta. repeat split. Qed.

End Tracker.

(** ** The size estimate: binary64 arithmetic *)

Section Binary64.
Import Estimate.
Open Scope Z_scope.

Lemma digits2_pos_bounds (p : positive) :
  2 ^ (Zpos (digits2_pos p) - 1) <= Zpos p < 2 ^ Zpos (digits2_pos p).
Proof.
  induction p as [p IH|p IH|]; simpl digits2_pos.
  - rewrite Pos2Z.inj_succ.
    replace (Z.succ (Zpos (digits2_pos p)) - 1)
      with (Z.succ (Zpos (digits2_pos p) - 1)) by lia.
    rewrite !Z.pow_succ_r by lia. lia.
  - rewrite Pos2Z.inj_succ.
    replace (Z.succ (Zpos (digits2_pos p)) - 1)
      with (Z.succ (Zpos (digits2_pos p) - 1)) by lia.
    rewrite !Z.pow_succ_r by lia. lia.
  - simpl. lia.
Qed.

Lemma digits2_pos_unique (p : positive) (k : Z) :
  2 ^ (k - 1) <= Zpos p < 2 ^ k -> Zpos (digits2_pos p) = k.
Proof.
  intros [L U]. destruct (digits2_pos_bounds p) as [L' U'].
  assert (0 < k).
  { destruct (Z_lt_le_dec 0 k); [assumption|].
    assert (2 ^ k <= 2 ^ 0) by (apply Z.pow_le_mono_r; lia).
    simpl in *. lia. }
  destruct (Z_lt_le_dec (Zpos (digits2_pos p)) k) as [C|C].
  - assert (2 ^ Zpos (digits2_pos p) <= 2 ^ (k - 1))
      by (apply Z.pow_le_mono_r; lia). lia.
  - destruct (Z_lt_le_dec k (Zpos (digits2_pos p))) as [C'|C']; [|lia].
    assert (2 ^ k <= 2 ^ (Zpos (digits2_pos p) - 1))
      by (apply Z.pow_le_mono_r; lia). lia.
Qed.

Lemma shr_1_nonneg (m : Z) (r s : bool) :
  0 <= m ->
  shr_1 {| shr_m := m; shr_r := r; shr_s := s |}
  = {| shr_m := Z.div2 m; shr_r := Z.odd m; shr_s := r || s |}.
Proof.
  intros H. destruct m as [|p|p]; [reflexivity| |lia].
  destruct p; reflexivity.
Qed.

Lemma shr_inv_start (m : Z) :
  0 <= m -> shr_inv m 0 {| shr_m := m; shr_r := false; shr_s := false |}.
Proof.
  intros H. unfold shr_inv. simpl.
  replace (m - m * 1) with 0 by lia.
  repeat split; try lia; discriminate.
Qed.

Lemma shr_inv_step (m k : Z) (r : shr_record) :
  0 <= k -> shr_inv m k r -> shr_inv m (k + 1) (shr_1 r).
Proof.
  intros Hk. destruct r as [q b s]. unfold shr_inv.
  cbn [shr_m shr_r shr_s].
  intros (Hq & Hrem & Hb & Hs).
  rewrite shr_1_nonneg by assumption. cbn [shr_m shr_r shr_s].
  rewrite Z.pow_add_r by lia. change (2 ^ 1) with 2.
  assert (X : 0 < 2 ^ k) by (apply Z.pow_pos_nonneg; lia).
  pose proof (Z.div2_odd q) as E.
  assert (Hh : 0 <= Z.div2 q) by (apply Z.div2_nonneg; assumption).
  set (h := Z.div2 q) in *. set (x := 2 ^ k) in *.
  assert (P : q * x = 2 * (h * x) + (if Z.odd q then x else 0)).
  { rewrite E at 1. destruct (Z.odd q); simpl Z.b2z; ring. }
  destruct (Z.odd q) eqn:O.
  - repeat split; try lia.
    intros Hs'. apply orb_false_iff in Hs'. destruct Hs' as [-> Hs'].
    specialize (Hs Hs').
    assert (~ x <= 2 * (m - q * x)) by (intros C; apply Hb in C; discriminate).
    right. lia.
  - repeat split; try lia; try discriminate.
    intros Hs'. apply orb_false_iff in Hs'. destruct Hs' as [-> Hs'].
    specialize (Hs Hs').
    assert (~ x <= 2 * (m - q * x)) by (intros C; apply Hb in C; discriminate).
    left. lia.
Qed.

Lemma shr_inv_iter (m : Z) (p : positive) (k : Z) (r : shr_record) :
  0 <= k -> shr_inv m k r -> shr_inv m (k + Zpos p) (iter_pos shr_1 p r).
Proof.
  revert k r. induction p as [p IH|p IH|]; intros k r Hk H; simpl iter_pos.
  - replace (k + Zpos p~1) with (((k + 1) + Zpos p) + Zpos p) by lia.
    apply IH; [lia|]. apply IH; [lia|]. now apply shr_inv_step.
  - replace (k + Zpos p~0) with ((k + Zpos p) + Zpos p) by lia.
    apply IH; [lia|]. now apply IH.
  - now apply shr_inv_step.
Qed.

Lemma round_nearest_even_error (m k : Z) (r : shr_record) :
  0 <= k -> shr_inv m k r ->
  let m2 := round_nearest_even (shr_m r) (loc_of_shr_record r) in
  shr_m r <= m2 <= shr_m r + 1
  /\ - 2 ^ k <= 2 * (m2 * 2 ^ k - m) <= 2 ^ k.
Proof.
  intros Hk. destruct r as [q b s]. unfold shr_inv.
  cbn [shr_m shr_r shr_s].
  intros (Hq & Hrem & Hb & Hs).
  assert (X : 0 < 2 ^ k) by (apply Z.pow_pos_nonneg; lia).
  set (x := 2 ^ k) in *.
  destruct b, s; cbn [round_nearest_even loc_of_shr_record shr_m].
  - assert (x <= 2 * (m - q * x)) by now apply Hb. lia.
  - assert (x <= 2 * (m - q * x)) by now apply Hb.
    specialize (Hs eq_refl). destruct (Z.even q); lia.
  - assert (~ x <= 2 * (m - q * x)) by (intros C; apply Hb in C; discriminate).
    lia.
  - assert (~ x <= 2 * (m - q * x)) by (intros C; apply Hb in C; discriminate).
    lia.
Qed.

Lemma fexp_normal (e : Z) :
  -1021 <= e -> fexp JS.prec JS.emax e = e - 53.
Proof. intros H. unfold fexp, emin, JS.prec, JS.emax. lia. Qed.

(** A 53-bit mantissa with an exponent in range is not rounded. *)
Lemma binary_round_aux_exact (s : bool) (m : positive) (e : Z) :
  Zpos (digits2_pos m) = 53 ->
  -1074 <= e <= 971 ->
  binary_round_aux JS.prec JS.emax s (Zpos m) e loc_Exact
  = S754_finite s m e.
Proof.
  intros D [L U]. unfold binary_round_aux, shr_fexp.
  cbn [Zdigits2 shr_record_of_loc]. rewrite D.
  rewrite fexp_normal by lia.
  replace (53 + e - 53 - e) with 0 by lia.
  cbn [shr shr_m loc_of_shr_record round_nearest_even Zdigits2
       shr_record_of_loc].
  rewrite D. rewrite fexp_normal by lia.
  replace (53 + e - 53 - e) with 0 by lia.
  cbn [shr shr_m].
  replace (e <=? JS.emax - JS.prec) with true; [reflexivity|].
  symmetry. apply Z.leb_le. unfold JS.emax, JS.prec. lia.
Qed.

(** A longer mantissa is rounded to 53 bits, to nearest. *)
Lemma binary_round_aux_nearest (mx : positive) (ex : Z) :
  let sh := Zpos (digits2_pos mx) - 53 in
  0 < sh -> -1074 <= ex + sh -> ex + sh + 1 <= 971 ->
  exists (m : positive) (g : Z),
    binary_round_aux JS.prec JS.emax false (Zpos mx) ex loc_Exact
    = S754_finite false m (ex + g)
    /\ sh <= g <= sh + 1
    /\ - 2 ^ sh <= 2 * (Zpos m * 2 ^ g - Zpos mx) <= 2 ^ sh.
Proof.
  intros sh Hsh Hlo Hhi.
  destruct (digits2_pos_bounds mx) as [DL DU].
  replace (Zpos (digits2_pos mx) - 1) with (52 + sh) in DL by (unfold sh; lia).
  replace (Zpos (digits2_pos mx)) with (53 + sh) in DU by (unfold sh; lia).
  rewrite Z.pow_add_r in DL, DU by lia.
  unfold binary_round_aux, shr_fexp at 1.
  cbn [Zdigits2 shr_record_of_loc].
  rewrite fexp_normal by (unfold sh in *; lia).
  replace (Zpos (digits2_pos mx) + ex - 53 - ex) with sh by (unfold sh; lia).
  destruct sh as [|psh|psh] eqn:Esh; try lia.
  cbn [shr].
  pose proof (shr_inv_iter (Zpos mx) psh 0 _ (Z.le_refl 0)
                (shr_inv_start (Zpos mx) (Pos2Z.is_nonneg mx))) as Hinv.
  rewrite Z.add_0_l in Hinv.
  pose proof (round_nearest_even_error _ _ _ (Pos2Z.is_nonneg psh) Hinv)
    as Herr.
  cbv zeta in Herr.
  set (r1 := iter_pos shr_1 psh _) in *.
  set (m2 := round_nearest_even (shr_m r1) (loc_of_shr_record r1)) in *.
  destruct Hinv as (Hq & Hrem & _).
  destruct Herr as (Hm2 & Herr).
  assert (X : 0 < 2 ^ Zpos psh) by (apply Z.pow_pos_nonneg; lia).
  set (x := 2 ^ Zpos psh) in *.
  assert (Q1 : 2 ^ 52 <= shr_m r1 < 2 ^ 53).
  { split.
    - assert (2 ^ 52 * x < (shr_m r1 + 1) * x) by lia.
      apply Z.mul_lt_mono_pos_r in H; lia.
    - assert (shr_m r1 * x < 2 ^ 53 * x) by lia.
      apply Z.mul_lt_mono_pos_r in H; lia. }
  destruct (Z.eq_dec m2 (2 ^ 53)) as [Etop|Ntop].
  - (* the rounding carried into a 54th bit *)
    exists (4503599627370496%positive), (Zpos psh + 1).
    rewrite Etop.
    unfold shr_fexp. 
    change (Zdigits2 (2 ^ 53)) with 54.
    rewrite fexp_normal by lia.
    replace (54 + (ex + Zpos psh) - 53 - (ex + Zpos psh)) with 1 by lia.
    cbn [shr shr_record_of_loc iter_pos].
    change (shr_m (shr_1 {| shr_m := 2 ^ 53; shr_r := false;
                            shr_s := false |}))
      with (Zpos 4503599627370496).
    cbv iota beta.
    replace (ex + Zpos psh + 1 <=? JS.emax - JS.prec) with true
      by (symmetry; apply Z.leb_le; unfold JS.emax, JS.prec; lia).
    split; [f_equal; lia|]. split; [lia|].
    rewrite Z.pow_add_r by lia. fold x. change (2 ^ 1) with 2.
    rewrite Etop in Herr. change (2 ^ 53) with 9007199254740992 in Herr.
    lia.
  - assert (M2 : 2 ^ 52 <= m2 < 2 ^ 53) by lia.
    destruct m2 as [|pm2|pm2] eqn:Em2; try (simpl in M2; lia).
    exists pm2, (Zpos psh).
    assert (D2 : Zpos (digits2_pos pm2) = 53)
      by (apply digits2_pos_unique; exact M2).
    unfold shr_fexp. cbn [Zdigits2 shr_record_of_loc]. rewrite D2.
    rewrite fexp_normal by lia.
    replace (53 + (ex + Zpos psh) - 53 - (ex + Zpos psh)) with 0 by lia.
    cbn [shr shr_m].
    replace (ex + Zpos psh <=? JS.emax - JS.prec) with true
      by (symmetry; apply Z.leb_le; unfold JS.emax, JS.prec; lia).
    split; [reflexivity|]. split; [lia|]. fold x. exact Herr.
Qed.

Lemma iter_xO_pow (p k : positive) :
  Zpos (Pos.iter xO p k) = Zpos p * 2 ^ Zpos k.
Proof.
  induction k as [|k IH] using Pos.peano_ind.
  - simpl. lia.
  - rewrite Pos.iter_succ, Pos2Z.inj_succ, Z.pow_succ_r by lia.
    rewrite Pos2Z.inj_xO, IH. ring.
Qed.

(** The number for a positive integer below 2^53: the integer itself, with
    a normalised 53-bit mantissa. *)
Lemma of_Z_pos (n : Z) :
  0 < n < 2 ^ 53 ->
  exists (mn : positive) (d : Z),
    JS.of_Z n = S754_finite false mn (d - 53)
    /\ 1 <= d <= 53
    /\ 2 ^ (d - 1) <= n < 2 ^ d
    /\ Zpos mn = n * 2 ^ (53 - d).
Proof.
  intros [Hpos Hlt]. destruct n as [|p|p]; try lia.
  destruct (digits2_pos_bounds p) as [DL DU].
  set (d := Zpos (digits2_pos p)) in *.
  assert (Hd : 1 <= d <= 53).
  { split; [unfold d; lia|].
    destruct (Z_lt_le_dec 53 d) as [C|C]; [|assumption].
    assert (2 ^ 53 <= 2 ^ (d - 1)) by (apply Z.pow_le_mono_r; lia). lia. }
  assert (E52 : 2 ^ (d - 1) * 2 ^ (53 - d) = 2 ^ 52).
  { rewrite <- Z.pow_add_r by lia. f_equal. lia. }
  assert (E53 : 2 ^ d * 2 ^ (53 - d) = 2 ^ 53).
  { rewrite <- Z.pow_add_r by lia. f_equal. lia. }
  assert (X : 0 < 2 ^ (53 - d)) by (apply Z.pow_pos_nonneg; lia).
  assert (B : 2 ^ 52 <= Zpos p * 2 ^ (53 - d) < 2 ^ 53).
  { rewrite <- E52, <- E53. split.
    - apply Z.mul_le_mono_nonneg_r; lia.
    - apply Z.mul_lt_mono_pos_r; lia. }
  unfold JS.of_Z, binary_normalize, binary_round. fold d.
  rewrite fexp_normal by lia. unfold shl_align.
  destruct (d + 0 - 53 - 0) as [|k|k] eqn:Ek; try lia.
  - (* d = 53 *)
    assert (Ed : d = 53) by lia.
    exists p, d.
    rewrite (binary_round_aux_exact false p 0); [|exact Ed|lia].
    rewrite Ed. split; [reflexivity|]. split; [lia|].
    split; [rewrite <- Ed; lia|]. simpl. lia.
  - assert (Hk : Zpos k = 53 - d) by lia.
    exists (Pos.iter xO p k), d.
    assert (V : Zpos (Pos.iter xO p k) = Zpos p * 2 ^ (53 - d)).
    { rewrite iter_xO_pow, Hk. reflexivity. }
    rewrite (binary_round_aux_exact false (Pos.iter xO p k) (d + 0 - 53)).
    + split; [f_equal; lia|]. split; [lia|]. split; [lia|]. exact V.
    + apply digits2_pos_unique. rewrite V. exact B.
    + lia.
Qed.

(** [1 - 0.4] is the double nearest to 0.6. *)
Lemma one_minus_reduction :
  JS.sub (JS.of_Z 1) JS.lit_0_4 = S754_finite false 5404319552844595 (-53).
Proof. reflexivity. Qed.

(** From a product rounded to nearest to the nearest integer of [0.6 n]. *)
Lemma nearest_six_tenths (n D m A X : Z) :
  0 <= n -> 8 <= D -> n * D < 2 ^ 53 ->
  0 < X -> 0 < A -> A * X = 2 ^ 53 * D ->
  - 2 ^ 53 <= 2 * (m * X - n * D * 5404319552844595) <= 2 ^ 53 ->
  (2 * m + A) / (2 * A) = (6 * n + 5) / 10.
Proof.
  intros Hn HD HnD HX HA HAX Herr.
  change (2 ^ 53) with 9007199254740992 in *.
  pose proof (Z.div_mod (6 * n + 5) 10 ltac:(lia)) as HK.
  pose proof (Z.mod_pos_bound (6 * n + 5) 10 ltac:(lia)) as HR.
  set (K := (6 * n + 5) / 10) in *.
  set (R := (6 * n + 5) mod 10) in *.
  assert (HR' : 1 <= R <= 9) by lia.
  assert (Y1 : 10 * (D * K) <= 6 * (n * D) + 4 * D) by nia.
  assert (Y2 : 6 * (n * D) - 4 * D <= 10 * (D * K)) by nia.
  assert (P1 : (2 * A * K) * X <= (2 * m + A) * X).
  { replace ((2 * A * K) * X) with (2 * (A * X) * K) by ring.
    replace ((2 * m + A) * X) with (2 * (m * X) + A * X) by ring.
    rewrite HAX.
    replace (2 * (9007199254740992 * D) * K)
      with (2 * 9007199254740992 * (D * K)) by ring.
    replace (n * D * 5404319552844595)
      with (5404319552844595 * (n * D)) in Herr by ring.
    lia. }
  assert (P2 : (2 * m + A) * X < (2 * A * (K + 1)) * X).
  { replace ((2 * A * (K + 1)) * X) with (2 * (A * X) * K + 2 * (A * X))
      by ring.
    replace ((2 * m + A) * X) with (2 * (m * X) + A * X) by ring.
    rewrite HAX.
    replace (2 * (9007199254740992 * D) * K)
      with (2 * 9007199254740992 * (D * K)) by ring.
    replace (n * D * 5404319552844595)
      with (5404319552844595 * (n * D)) in Herr by ring.
    assert (0 <= n * D) by nia.
    lia. }
  apply Z.mul_le_mono_pos_r in P1; [|assumption].
  apply Z.mul_lt_mono_pos_r in P2; [|assumption].
  symmetry. apply (Z.div_unique_pos _ _ K (2 * m + A - 2 * A * K)); lia.
Qed.

End Binary64.

(** ** The size estimate *)

Section SizeEstimate.
Import Estimate ProcessingSettings.
Open Scope Z_scope.

(** The claim that the estimate is the floor of [0.6 * size] fails:
    for a file of 1 byte [Math.round(0.6)] is 1 and the floor is 0. *)
Lemma estimate_is_not_floor :
  let p := {| fileName := JS.lit "a.png"; fileSize := 1;
              fileType := JS.lit "image/png" |} in
  let s := input ToggleCompression initial in
  compressEnabled s = true
  /\ getEstimatedSize p s = JS.of_Z 1
  /\ floor_six_tenths (fileSize p) = 0
  /\ getEstimatedSize p s <> JS.of_Z (floor_six_tenths (fileSize p)).
Proof.
  cbv zeta. split; [reflexivity|]. split; [reflexivity|].
  split; [reflexivity|]. discriminate.
Qed.

(** C7 (amended).  For every file size below 2^50 bytes, the estimate with
    compression on is [0.6 * size] rounded to the nearest integer, which is
    [floor (0.6 * size + 1/2)] (the floating-point product and
    [Math.round] introduce no error in this range); with compression off it
    is the size itself.  It is a function of the size and the switch
    alone. *)
Theorem estimated_size_rounds (p : Props) (s : State) :
  0 <= fileSize p < 2 ^ 50 ->
  getEstimatedSize p s
  = if compressEnabled s
    then JS.of_Z (round_six_tenths (fileSize p))
    else JS.of_Z (fileSize p).
Proof.
  intros [Hn0 Hn50].
  unfold getEstimatedSize, getCompressionReduction, round_six_tenths.
  destruct (compressEnabled s); cbn [negb]; [|reflexivity].
  rewrite one_minus_reduction.
  set (n := fileSize p) in *.
  destruct (Z.eq_dec n 0) as [->|Hnz]; [reflexivity|].
  assert (H53 : 0 < n < 2 ^ 53).
  { split; [lia|]. change (2 ^ 50) with 1125899906842624 in Hn50.
    change (2 ^ 53) with 9007199254740992. lia. }
  destruct (of_Z_pos n H53) as (mn & d & E & Hd & Hn & Hmn).
  rewrite E. unfold JS.mul, SFmul. cbn [xorb].
  (* the exponent of the size *)
  assert (Hd50 : d <= 50).
  { destruct (Z_lt_le_dec 50 d) as [C|C]; [|assumption].
    assert (2 ^ 50 <= 2 ^ (d - 1)) by (apply Z.pow_le_mono_r; lia). lia. }
  set (D := 2 ^ (53 - d)) in *.
  assert (HD : 8 <= D).
  { change 8 with (2 ^ 3). apply Z.pow_le_mono_r; lia. }
  assert (Bmn : 2 ^ 52 <= Zpos mn < 2 ^ 53).
  { rewrite Hmn. unfold D.
    replace (2 ^ 52) with (2 ^ (d - 1) * 2 ^ (53 - d))
      by (rewrite <- Z.pow_add_r by lia; f_equal; lia).
    replace (2 ^ 53) with (2 ^ d * 2 ^ (53 - d))
      by (rewrite <- Z.pow_add_r by lia; f_equal; lia).
    assert (0 < 2 ^ (53 - d)) by (apply Z.pow_pos_nonneg; lia).
    split; [apply Z.mul_le_mono_nonneg_r; lia
           |apply Z.mul_lt_mono_pos_r; lia]. }
  (* the product has 105 or 106 bits *)
  set (P := (mn * 5404319552844595)%positive).
  assert (EP : Zpos P = Zpos mn * 5404319552844595) by reflexivity.
  assert (BP : 2 ^ 104 <= Zpos P < 2 ^ 106).
  { rewrite EP. change (2 ^ 52) with 4503599627370496 in Bmn.
    change (2 ^ 53) with 9007199254740992 in Bmn.
    change (2 ^ 104) with 20282409603651670423947251286016.
    change (2 ^ 106) with 81129638414606681695789005144064. lia. }
  destruct (digits2_pos_bounds P) as [PL PU].
  assert (Hdg : 105 <= Zpos (digits2_pos P) <= 106).
  { split.
    - destruct (Z_lt_le_dec (Zpos (digits2_pos P)) 105) as [C|C]; [|lia].
      assert (2 ^ Zpos (digits2_pos P) <= 2 ^ 104)
        by (apply Z.pow_le_mono_r; lia). lia.
    - destruct (Z_lt_le_dec 106 (Zpos (digits2_pos P))) as [C|C]; [|lia].
      assert (2 ^ 106 <= 2 ^ (Zpos (digits2_pos P) - 1))
        by (apply Z.pow_le_mono_r; lia). lia. }
  pose proof (binary_round_aux_nearest P (d - 53 + -53)) as R.
  cbv zeta in R.
  set (sh := Zpos (digits2_pos P) - 53) in *.
  destruct R as (m & g & Er & Hg & Herr); try lia.
  rewrite Er. unfold JS.Math_round.
  replace (0 <=? d - 53 + -53 + g) with false
    by (symmetry; apply Z.leb_gt; lia).
  cbn [cond_Zopp].
  unfold JS.of_Z. f_equal.
  (* the integer *)
  replace (- (d - 53 + -53 + g)) with (106 - d - g) by lia.
  replace (1 - (d - 53 + -53 + g)) with (1 + (106 - d - g)) by lia.
  rewrite (Z.pow_add_r 2 1) by lia. change (2 ^ 1) with 2.
  assert (HX : 0 < 2 ^ g) by (apply Z.pow_pos_nonneg; lia).
  assert (HA : 0 < 2 ^ (106 - d - g)) by (apply Z.pow_pos_nonneg; lia).
  assert (Hsh : 2 ^ sh <= 2 ^ 53) by (apply Z.pow_le_mono_r; lia).
  apply (nearest_six_tenths n D (Zpos m) (2 ^ (106 - d - g)) (2 ^ g));
    try assumption; try lia.
  rewrite <- Z.pow_add_r by lia. unfold D.
  rewrite <- Z.pow_add_r by lia. f_equal. lia.
Qed.

Lemma estimated_size_rounds_witness :
  let p := {| fileName := JS.lit "a.png"; fileSize := 10 * 1024 * 1024;
              fileType := JS.lit "image/png" |} in
  let on := input ToggleCompression initial in
  0 <= fileSize p < 2 ^ 50
  /\ getEstimatedSize p on = JS.of_Z 6291456
  /\ getEstimatedSize p initial = JS.of_Z (10 * 1024 * 1024).
Proof.
  intros p on.
  assert (H : 0 <= fileSize p < 2 ^ 50) by (cbn; lia).
  split; [exact H|].
  split; [exact (estimated_size_rounds p on H)
         |exact (estimated_size_rounds p initial H)].
Defined.

End SizeEstimate.

(* ================================================================== *)
(** * Further properties of the components *)
(* ================================================================== *)

(** ** Intake of a batch and removal *)

Section IntakeFacts.
Import JS FileUpload Transfer Intake.

Lemma intake_status (p : Pick) :
  status (intake p) = if accepted p then st_uploading else st_error.
Proof.
  unfold intake, accepted. destruct (validateFile (picked p)); reflexivity.
Qed.

Lemma intake_error (p : Pick) : error (intake p) = validateFile (picked p).
Proof.
  unfold intake. destruct (validateFile (picked p)); reflexivity.
Qed.

Lemma intake_file (p : Pick) : file (intake p) = picked p.
Proof.
  unfold intake. destruct (validateFile (picked p)); reflexivity.
Qed.

Lemma started_for_accepted (ps : list Pick) :
  map (fun u => simulateUpload (id u))
      (filter (fun u => Status_eqb (status u) st_uploading) (map intake ps))
  = map (fun p => simulateUpload (make_id p)) (filter accepted ps).
Proof.
  induction ps as [|p ps IH]; [reflexivity|].
  simpl. rewrite intake_status.
  destruct (accepted p); simpl; [rewrite intake_id|]; now rewrite IH.
Qed.

(** X1.  Picking files in one batch or in two gives the same entries and the
    same intervals; an empty selection, like no selection, changes
    nothing. *)
Theorem handleFiles_batches (a b : list Pick) (s : State) :
  handleFiles (Some (a ++ b)) s = handleFiles (Some b) (handleFiles (Some a) s)
  /\ handleFiles (Some []) s = s
  /\ handleFiles None s = s.
Proof.
  split; [|split; [|reflexivity]].
  - unfold handleFiles. simpl.
    rewrite !map_app, !filter_app, !map_app, !app_assoc. reflexivity.
  - destruct s as [fs ts]. unfold handleFiles. simpl.
    now rewrite !app_nil_r.
Qed.

(** X2.  [handleFiles] keeps what is there and appends one entry per picked
    file, in order.  A transfer is started exactly for the files that
    [validateFile] accepts, in their order; an entry is 'error' exactly when
    the validator returned a message, which it carries, and every new entry
    starts at progress 0. *)
Theorem handleFiles_verdicts (ps : list Pick) (s : State) :
  let s' := handleFiles (Some ps) s in
  files s' = files s ++ map intake ps
  /\ intervals s'
     = intervals s
       ++ map (fun p => simulateUpload (make_id p)) (filter accepted ps)
  /\ (forall p,
        error (intake p) = validateFile (picked p)
        /\ progress (intake p) = 0%Z
        /\ (status (intake p) = st_error <-> validateFile (picked p) <> None)
        /\ (status (intake p) = st_uploading
            <-> validateFile (picked p) = None)).
Proof.
  cbv zeta. split; [reflexivity|]. split.
  - unfold handleFiles. simpl. now rewrite started_for_accepted.
  - intros p. split; [apply intake_error|].
    split; [apply intake_ok|].
    rewrite intake_status. unfold accepted.
    destruct (validateFile (picked p)); split; split; congruence.
Qed.

Lemma filter_id_absent (i : jsstring) (fs : list UploadedFile) :
  (forall u, In u fs -> id u <> i) ->
  filter (fun f => negb (str_eqb (id f) i)) fs = fs.
Proof.
  induction fs as [|u fs IH]; intros H; [reflexivity|].
  simpl. assert (E : str_eqb (id u) i = false).
  { apply str_eqb_neq. apply H. now left. }
  rewrite E. simpl. f_equal. apply IH. intros v Hv. apply H. now right.
Qed.

Lemma removals_combine (i j : jsstring) (fs : list UploadedFile) :
  filter (fun f => negb (str_eqb (id f) i))
    (filter (fun f => negb (str_eqb (id f) j)) fs)
  = filter (fun f => negb (str_eqb (id f) j) && negb (str_eqb (id f) i)) fs.
Proof.
  induction fs as [|u fs IH]; [reflexivity|].
  simpl. destruct (str_eqb (id u) j); simpl;
    [|destruct (str_eqb (id u) i)]; now rewrite IH.
Qed.

(** X3.  Removing an entry twice is removing it once, removals commute,
    removing an id that is not in the list changes nothing, and a removal
    never touches the intervals: a running transfer is not stopped. *)
Theorem removeFile_algebra (i j : jsstring) (s : State) :
  removeFile i (removeFile i s) = removeFile i s
  /\ removeFile i (removeFile j s) = removeFile j (removeFile i s)
  /\ intervals (removeFile i s) = intervals s
  /\ ((forall u, In u (files s) -> id u <> i) -> removeFile i s = s).
Proof.
  unfold removeFile. simpl. repeat split.
  - f_equal. rewrite removals_combine. apply filter_ext.
    intros u. now destruct (str_eqb (id u) i).
  - f_equal. rewrite !removals_combine. apply filter_ext.
    intros u. apply andb_comm.
  - intros H. destruct s as [fs ts]. simpl in *. f_equal.
    now apply filter_id_absent.
Qed.

Lemma removeFile_algebra_witness :
  let pick := {| picked := {| name := JS.lit "a.png"; size := 1024;
                              type := JS.lit "image/png" |};
                 now := JS.lit "17"; random := JS.lit "0.5" |} in
  let s := handleFiles (Some [pick]) initial in
  (forall u, In u (files s) -> id u <> JS.lit "b.pdf-18-0.75")
  /\ removeFile (JS.lit "b.pdf-18-0.75") s = s
  /\ List.length (intervals (removeFile (make_id pick) s)) = 1%nat.
Proof.
  intros pick s.
  assert (H : forall u, In u (files s) -> id u <> JS.lit "b.pdf-18-0.75").
  { intros u [<-|[]]. discriminate. }
  destruct (removeFile_algebra (JS.lit "b.pdf-18-0.75") (make_id pick) s)
    as (_ & _ & _ & A).
  split; [exact H|]. split; [exact (A H) | reflexivity].
Defined.

End IntakeFacts.

(** ** Completion of a transfer *)

Section Completion.
Import JS FileUpload Transfer Intake.

Lemma fire_nth_at (k : nat) (ts : list Interval) (fs : list UploadedFile)
      (t : Interval) :
  nth_error ts k = Some t ->
  nth_error (fst (fire_nth k ts fs)) k = Some (fst (fire t fs))
  /\ snd (fire_nth k ts fs) = snd (fire t fs).
Proof.
  revert k; induction ts as [|t0 ts IH]; intros k H.
  - destruct k; discriminate.
  - destruct k as [|k]; simpl in *.
    + inversion H; subst. destruct (fire t fs); simpl. now split.
    + destruct (IH k H) as [A B].
      destruct (fire_nth k ts fs) as [ts' fs']; simpl in *. now split.
Qed.

Lemma tick_at (k : nat) (s : State) (t : Interval) :
  nth_error (intervals s) k = Some t ->
  nth_error (intervals (tick k s)) k = Some (fst (fire t (files s)))
  /\ files (tick k s) = snd (fire t (files s)).
Proof.
  intros H. unfold tick.
  destruct (fire_nth_at k (intervals s) (files s) t H) as [A B].
  destruct (fire_nth k (intervals s) (files s)); simpl in *. now split.
Qed.

Lemma finished_absorbs (i : jsstring) (p : Z) (fs : list UploadedFile) :
  finished i
    (map (fun f => if str_eqb (id f) i then set_progress p f else f) fs)
  = finished i fs.
Proof.
  unfold finished. rewrite map_map. apply map_ext. intros u.
  destruct (str_eqb (id u) i) eqn:E; simpl; now rewrite E.
Qed.

Lemma run_ticks_succ (k n : nat) (s : State) :
  run (repeat (EvTick k) (S n)) s = run (repeat (EvTick k) n) (tick k s).
Proof. reflexivity. Qed.

Lemma countdown (k n : nat) :
  forall (s : State) (t : Interval),
    nth_error (intervals s) k = Some t ->
    cleared t = false ->
    (100 - 10 * Z.of_nat (S n) <= counter t < 100 - 10 * Z.of_nat n)%Z ->
    files (run (repeat (EvTick k) (S n)) s) = finished (fileId t) (files s)
    /\ (exists t', nth_error (intervals (run (repeat (EvTick k) (S n)) s)) k
                   = Some t'
                   /\ cleared t' = true /\ fileId t' = fileId t)
    /\ (forall m, (m <= n)%nat ->
          exists tm, nth_error (intervals (run (repeat (EvTick k) m) s)) k
                     = Some tm
                     /\ cleared tm = false).
Proof.
  induction n as [|n IH]; intros s t Ht Hc Hb.
  - destruct (tick_at k s t Ht) as [A B].
    unfold fire in A, B. rewrite Hc in A, B. unfold callback in A, B.
    replace (counter t + 10 >=? 100)%Z with true in A, B
      by (symmetry; rewrite Z.geb_leb; apply Z.leb_le; lia).
    simpl in A, B. rewrite run_ticks_succ. simpl.
    split; [exact B|]. split.
    + eexists. split; [exact A|]. now split.
    + intros m Hm. assert (m = 0)%nat by lia. subst m. simpl.
      exists t. now split.
  - destruct (tick_at k s t Ht) as [A B].
    unfold fire in A, B. rewrite Hc in A, B. unfold callback in A, B.
    replace (counter t + 10 >=? 100)%Z with false in A, B
      by (symmetry; rewrite Z.geb_leb; apply Z.leb_gt; lia).
    simpl in A, B.
    rewrite run_ticks_succ.
    destruct (IH (tick k s) _ A eq_refl) as (F & T & M).
    { simpl counter. lia. }
    simpl fileId in F, T.
    split; [|split].
    + rewrite F, B. apply finished_absorbs.
    + exact T.
    + intros m Hm. destruct m as [|m].
      * simpl. exists t. now split.
      * rewrite run_ticks_succ. apply M. lia.
Qed.

(** X4.  A transfer that has started always finishes: an interval that is
    not cleared and whose counter is [c], between 0 and 99, reaches 100
    with its [ceil ((100 - c) / 10)]-th firing from now, at most the tenth.
    The entries with its id are then 'success' at 100, the others are as
    they were, the interval is cleared, and it is not cleared before. *)
Theorem transfer_terminates (k : nat) (s : State) (t : Interval) :
  nth_error (intervals s) k = Some t ->
  cleared t = false ->
  (0 <= counter t < 100)%Z ->
  let n := firings_left (counter t) in
  (1 <= n <= 10)%nat
  /\ files (run (repeat (EvTick k) n) s) = finished (fileId t) (files s)
  /\ (exists t', nth_error (intervals (run (repeat (EvTick k) n) s)) k
                 = Some t'
                 /\ cleared t' = true /\ fileId t' = fileId t)
  /\ (forall m, (m < n)%nat ->
        exists tm, nth_error (intervals (run (repeat (EvTick k) m) s)) k
                   = Some tm
                   /\ cleared tm = false).
Proof.
  intros Ht Hc Hb. cbv zeta. unfold firings_left.
  set (q := ((109 - counter t) / 10)%Z).
  assert (Hq : (10 * q <= 109 - counter t < 10 * q + 10)%Z).
  { unfold q. pose proof (Z.div_mod (109 - counter t) 10 ltac:(lia)).
    pose proof (Z.mod_pos_bound (109 - counter t) 10 ltac:(lia)). lia. }
  assert (Hq1 : (1 <= q <= 10)%Z) by lia.
  destruct (Z.to_nat q) as [|n] eqn:En; [lia|].
  assert (Eq : q = Z.of_nat (S n)) by lia.
  destruct (countdown k n s t Ht Hc) as (F & T & M); [lia|].
  split; [lia|]. split; [exact F|]. split; [exact T|].
  intros m Hm. apply M. lia.
Qed.

Lemma transfer_terminates_witness :
  let pick := {| picked := {| name := JS.lit "a.png"; size := 1024;
                              type := JS.lit "image/png" |};
                 now := JS.lit "17"; random := JS.lit "0.5" |} in
  let s := run [EvHandleFiles [pick]; EvTick 0; EvTick 0; EvTick 0] initial in
  let t := {| fileId := make_id pick; counter := 30; cleared := false |} in
  nth_error (intervals s) 0 = Some t
  /\ firings_left (counter t) = 7%nat
  /\ files (run (repeat (EvTick 0) 7) s) = finished (fileId t) (files s).
Proof.
  intros pick s t.
  assert (H : nth_error (intervals s) 0 = Some t) by reflexivity.
  assert (B : (0 <= counter t < 100)%Z) by (simpl; lia).
  destruct (transfer_terminates 0 s t H eq_refl B) as (_ & F & _).
  split; [exact H|]. split; [reflexivity | exact F].
Defined.

End Completion.

(** ** The verdict of the validator *)

Section Verdicts.
Import JS FileUpload Transfer Intake.

Lemma verdict_intake (p : Pick) : verdict_kept (intake p).
Proof.
  unfold verdict_kept. rewrite intake_error, intake_file, intake_status.
  unfold accepted. split; [reflexivity|].
  destruct (validateFile (picked p)); split; congruence.
Qed.

Lemma verdict_uploading (u : UploadedFile) (p : Z) :
  verdict_kept u -> status u = st_uploading ->
  verdict_kept (set_success u) /\ verdict_kept (set_progress p u).
Proof.
  unfold verdict_kept. intros [E S] U. simpl.
  assert (N : error u = None).
  { destruct (error u) eqn:Q; [|reflexivity].
    assert (status u = st_error) by (apply S; discriminate). congruence. }
  rewrite <- E, N, U. repeat split; try congruence; discriminate.
Qed.

Lemma verdict_fire (t : Interval) (l1 l2 : list Interval)
      (fs : list UploadedFile) :
  Inv {| files := fs; intervals := l1 ++ t :: l2 |} ->
  Forall verdict_kept fs -> Forall verdict_kept (snd (fire t fs)).
Proof.
  intros [_ _ _ I4] V. simpl in I4.
  apply Forall_elt in I4. destruct I4 as (_ & _ & Ht).
  unfold fire. destruct (cleared t) eqn:Hc; [exact V|].
  assert (G : forall upd,
            (forall u, verdict_kept u -> status u = st_uploading ->
                       verdict_kept (upd u)) ->
            Forall verdict_kept
              (map (fun f => if str_eqb (id f) (fileId t) then upd f else f)
                   fs)).
  { intros upd Hupd. apply Forall_map. rewrite Forall_forall in V.
    apply Forall_forall. intros u Hu.
    destruct (str_eqb (id u) (fileId t)) eqn:Q; [|now apply V].
    apply str_eqb_eq in Q. apply Hupd; [now apply V|].
    exact (proj1 (Ht u Hu Q)). }
  unfold callback. destruct (counter t + 10 >=? 100)%Z; simpl; apply G;
    intros u Vu Su;
    [exact (proj1 (verdict_uploading u 0 Vu Su))
    |exact (proj2 (verdict_uploading u _ Vu Su))].
Qed.

Lemma verdict_step (e : Event) (s : State) :
  Inv s -> Forall verdict_kept (files s) ->
  Forall verdict_kept (files (step e s)).
Proof.
  intros I V. destruct e as [ps|i|k]; simpl.
  - apply Forall_app. split; [exact V|].
    apply Forall_map, Forall_forall. intros p _. apply verdict_intake.
  - rewrite Forall_forall in *. intros u Hu. apply filter_In in Hu.
    now apply V.
  - destruct s as [fs ts]. unfold tick. simpl in *.
    pose proof (fire_nth_spec k ts fs) as H.
    destruct (nth_error ts k) as [t|].
    + destruct H as (l1 & l2 & E & ->). simpl.
      apply (verdict_fire t l1 l2); [now rewrite <- E | exact V].
    + now rewrite H.
Qed.

Lemma verdict_run (es : list Event) (s : State) :
  Inv s -> Forall verdict_kept (files s) ->
  admissible_trace s es = true ->
  Inv (run es s) /\ Forall verdict_kept (files (run es s)).
Proof.
  revert s; induction es as [|e es IH]; intros s I V A; [now split|].
  simpl in A. apply andb_true_iff in A. destruct A as [A1 A2].
  simpl. apply IH; [now apply Inv_step | now apply verdict_step | exact A2].
Qed.

Lemma validateFile_accepts (f : File) :
  validateFile f = None
  <-> In (type f) ALLOWED_FILE_TYPES /\ (size f <= MAX_FILE_SIZE)%Z.
Proof.
  unfold validateFile.
  destruct (includes ALLOWED_FILE_TYPES (type f)) eqn:T; cbn [negb].
  - apply includes_In in T.
    destruct (size f >? MAX_FILE_SIZE)%Z eqn:S.
    + apply Z.gtb_lt in S. split; [discriminate | lia].
    + rewrite Z.gtb_ltb in S. apply Z.ltb_ge in S.
      split; [intros _; now split | reflexivity].
  - apply includes_not_In in T. split; [discriminate|].
    intros [C _]. contradiction.
Qed.

(** X5.  Along every run of the component in which the ids handed out are
    new, each entry carries [validateFile]'s verdict on its own file as its
    [error], and is in status 'error' exactly when that verdict is a
    message: a rejected file never becomes 'uploading' or 'success', and
    every entry that is transferring or transferred has an allowed type and
    at most 10 MiB. *)
Theorem verdicts_are_kept (es : list Event) :
  admissible_trace initial es = true ->
  forall u, In u (files (run es initial)) ->
    error u = validateFile (file u)
    /\ (status u = st_error <-> validateFile (file u) <> None)
    /\ (status u <> st_error ->
        In (type (file u)) ALLOWED_FILE_TYPES
        /\ (size (file u) <= 10 * 1024 * 1024)%Z).
Proof.
  intros A u Hu.
  destruct (verdict_run es initial Inv_initial (Forall_nil _) A) as [_ V].
  rewrite Forall_forall in V. destruct (V u Hu) as [E S].
  split; [exact E|]. rewrite <- E. split; [exact S|].
  intros N. apply validateFile_accepts. rewrite <- E.
  destruct (error u); [|reflexivity]. exfalso. apply N, S. discriminate.
Qed.

Lemma verdicts_are_kept_witness :
  let png := {| picked := {| name := JS.lit "a.png"; size := 1024;
                             type := JS.lit "image/png" |};
                now := JS.lit "17"; random := JS.lit "0.5" |} in
  let exe := {| picked := {| name := JS.lit "x.exe"; size := 1024;
                             type := JS.lit "application/x-msdownload" |};
                now := JS.lit "17"; random := JS.lit "0.25" |} in
  let es := EvHandleFiles [png; exe] :: repeat (EvTick 0) 10 in
  admissible_trace initial es = true
  /\ map (fun u => (status u, error u)) (files (run es initial))
     = [ (st_success, None);
         (st_error, Some (JS.lit "File type not allowed")) ]
  /\ (forall u, In u (files (run es initial)) ->
        error u = validateFile (file u)).
Proof.
  intros png exe es.
  assert (A : admissible_trace initial es = true) by reflexivity.
  split; [exact A|]. split; [reflexivity|].
  intros u Hu. exact (proj1 (verdicts_are_kept es A u Hu)).
Defined.

End Verdicts.

(** ** The way through the page *)

Section Journeys.
Import App Journey.

Lemma dashboard_ok_mount (scr : Screen) : dashboard_ok (mount scr).
Proof.
  destruct scr; simpl; auto. split; [apply Inv_initial | constructor].
Qed.

Lemma update_local (f : State -> State) (s : Sys) :
  dashboard_ok (local s) -> dashboard_ok (local (update f s)).
Proof.
  intros H. unfold update. simpl.
  destruct (same_component _ _); [exact H | apply dashboard_ok_mount].
Qed.

Ltac keep_selection S := intros ? ; simpl; first [discriminate | apply S].

Lemma good_dispatch (e : Event) (s : Sys) :
  admissible s e = true ->
  dashboard_ok (local s) -> selection_ok (app s) ->
  dashboard_ok (local (dispatch e s)) /\ selection_ok (app (dispatch e s)).
Proof.
  intros A D S. unfold dispatch.
  destruct e as [user| | | |ev|k|i| | | |].
  - destruct (render (app s)); try (now split).
    split; [now apply update_local | keep_selection S].
  - destruct (render (app s)); try (now split);
      (split; [now apply update_local | keep_selection S]).
  - destruct (render (app s)); try (now split).
    split; [now apply update_local | keep_selection S].
  - destruct (render (app s)); try (now split).
    split; [now apply update_local | keep_selection S].
  - (* Upload *)
    unfold admissible in A.
    destruct (render (app s)) eqn:R; try (now split).
    destruct (local s) as [|st0| | |st] eqn:L;
      try (split; [rewrite L; exact D | exact S]).
    simpl. split; [|exact S]. unfold dashboard_ok in D. destruct D as [I V].
    split; [now apply Inv_step | now apply verdict_step].
  - (* ProcessFile *)
    destruct (render (app s)) eqn:R; try (now split).
    destruct (local s) as [|st0| | |st] eqn:L;
      try (split; [rewrite L; exact D | exact S]).
    destruct (nth_error (FileUpload.files st) k) as [u|] eqn:N;
      [|split; [rewrite L; exact D | exact S]].
    destruct (FileUpload.Status_eqb _ _) eqn:Q;
      [|split; [rewrite L; exact D | exact S]].
    split; [apply update_local; now rewrite L|].
    intros f. simpl. intros E. inversion E; subst f.
    unfold dashboard_ok in D. destruct D as [_ V].
    rewrite Forall_forall in V.
    destruct (V u (nth_error_In _ _ N)) as [E1 E2].
    rewrite <- E1. destruct (FileUpload.error u); [|reflexivity].
    assert (H : FileUpload.status u = FileUpload.st_error)
      by (apply E2; discriminate).
    rewrite H in Q. discriminate.
  - (* Settings *)
    destruct (render (app s)); try (now split).
    destruct (local s) eqn:L; split; try exact S;
      first [rewrite L; exact D | exact I].
  - (* SaveSettings *)
    destruct (render (app s)); try (now split).
    destruct (local s) eqn:L;
      try (split; [rewrite L; exact D | exact S]).
    destruct (ProcessingSettings.click_save p st);
      (split; [simpl; try rewrite L; exact D | exact S]).
  - destruct (render (app s)); try (now split).
    split; [now apply update_local | keep_selection S].
  - destruct (render (app s)); try (now split).
    split; [now apply update_local | keep_selection S].
  - (* TimeoutFires *)
    assert (G : dashboard_ok
                  (local match timeouts s with
                         | O => s
                         | S n => update (setCurrentPage complete)
                                    {| app := app s; local := local s;
                                       timeouts := n; console := console s |}
                         end)
                /\ selection_ok
                     (app match timeouts s with
                          | O => s
                          | S n => update (setCurrentPage complete)
                                     {| app := app s; local := local s;
                                        timeouts := n;
                                        console := console s |}
                          end)).
    { destruct (timeouts s); [now split|].
      split; [now apply update_local | keep_selection S]. }
    destruct (render (app s)); exact G.
Qed.

Lemma good_run (es : list Event) (s : Sys) :
  admissible_trace s es = true ->
  dashboard_ok (local s) -> selection_ok (app s) ->
  dashboard_ok (local (run es s)) /\ selection_ok (app (run es s)).
Proof.
  revert s; induction es as [|e es IH]; intros s A D S; [now split|].
  simpl in A. apply andb_true_iff in A. destruct A as [A1 A2].
  destruct (good_dispatch e s A1 D S) as [D' S'].
  simpl. now apply IH.
Qed.

(** X6.  Along every run of the page from its start in which upload ids are
    new, the selected file is one that [validateFile] accepts: the settings
    page is only ever shown for a file of an allowed type and at most
    10 MiB, and the completion page is only ever shown while a file is
    selected, for the name of that very file, which [validateFile]
    accepts. *)
Theorem only_validated_files_proceed (es : list Event) :
  admissible_trace boot es = true ->
  let s := run es boot in
  (forall f, selectedFile (app s) = Some f ->
     FileUpload.validateFile f = None)
  /\ (forall p, render (app s) = ProcessingSettings p ->
        In (ProcessingSettings.fileType p) FileUpload.ALLOWED_FILE_TYPES
        /\ (ProcessingSettings.fileSize p <= 10 * 1024 * 1024)%Z)
  /\ (forall fileName, render (app s) = CompletePage fileName ->
        exists f, selectedFile (app s) = Some f
                  /\ FileUpload.validateFile f = None
                  /\ fileName = name f).
Proof.
  intros A. cbv zeta.
  assert (G : selection_ok (app (run es boot))).
  { apply good_run; [exact A | exact I | intros f; discriminate]. }
  split; [exact G|]. split.
  - intros p R. unfold render in R.
    destruct (isLoggedIn (app (run es boot))); simpl in R; [|discriminate].
    destruct (currentPage (app (run es boot)));
      destruct (selectedFile (app (run es boot))) as [f|] eqn:F;
      try discriminate.
    inversion R; subst p. simpl.
    apply validateFile_accepts. now apply G.
  - intros fileName R. unfold render in R.
    destruct (isLoggedIn (app (run es boot))); simpl in R; [|discriminate].
    destruct (currentPage (app (run es boot)));
      destruct (selectedFile (app (run es boot))) as [f|] eqn:F;
      try discriminate.
    inversion R; subst fileName. exists f.
    split; [reflexivity|]. split; [now apply G | reflexivity].
Qed.

Lemma only_validated_files_proceed_witness :
  let f := {| name := JS.lit "a.png"; size := 1024;
              type := JS.lit "image/png" |} in
  let exe := {| name := JS.lit "x.exe"; size := 1024;
                type := JS.lit "application/x-msdownload" |} in
  let es :=
    [ Login (JS.lit "u");
      Upload (FileUpload.EvHandleFiles
                [ {| FileUpload.picked := exe; FileUpload.now := JS.lit "17";
                     FileUpload.random := JS.lit "0.25" |};
                  {| FileUpload.picked := f; FileUpload.now := JS.lit "17";
                     FileUpload.random := JS.lit "0.5" |} ]) ]
    ++ repeat (Upload (FileUpload.EvTick 0)) 10
    ++ [ ProcessFile 0; ProcessFile 1 ] in
  admissible_trace boot es = true
  /\ selectedFile (app (run es boot)) = Some f
  /\ FileUpload.validateFile f = None.
Proof.
  intros f exe es.
  assert (A : admissible_trace boot es = true) by reflexivity.
  assert (S : selectedFile (app (run es boot)) = Some f) by reflexivity.
  split; [exact A|]. split; [exact S|].
  exact (proj1 (only_validated_files_proceed es A) f S).
Defined.

End Journeys.

(** ** Submissions, timers and sessions *)

Section Submissions.
Import App Journey.

Lemma click_save_well_formed (p : ProcessingSettings.Props)
      (st : ProcessingSettings.State) (c : ProcessingConfig.t) :
  ProcessingSettings.click_save p st = Some c ->
  well_formed c
  /\ ProcessingConfig.outputFileName c = ProcessingSettings.fileName p.
Proof.
  unfold ProcessingSettings.click_save, ProcessingSettings.Button_click,
    ProcessingSettings.save_disabled.
  destruct (ProcessingSettings.canProceed st) eqn:C; [|discriminate].
  simpl. intros E. inversion E; subst c. split; [|reflexivity].
  unfold well_formed, ProcessingSettings.handleSaveSettings. simpl.
  destruct (ProcessingSettings.encryptEnabled st) eqn:En; [|reflexivity].
  split; [reflexivity|].
  rewrite canProceed_encrypting in C by exact En. now apply Nat.leb_le.
Qed.

Lemma update_console (f : State -> State) (s : Sys) :
  console (update f s) = console s /\ timeouts (update f s) = timeouts s.
Proof. now split. Qed.

Ltac same := split; [reflexivity | left; reflexivity].

(** What one event does to the log and to the pending timers. *)
Lemma dispatch_ledger (e : Event) (s : Sys) :
  (console (dispatch e s) = console s
   /\ (timeouts (dispatch e s) = timeouts s
       \/ (e = TimeoutFires /\ timeouts s = S (timeouts (dispatch e s))
           /\ currentPage (app (dispatch e s)) = complete)))
  \/ (e = SaveSettings
      /\ exists p st c,
           render (app s) = ProcessingSettings p
           /\ local s = AtSettings st
           /\ ProcessingSettings.click_save p st = Some c
           /\ console (dispatch e s) = console s ++ [c]
           /\ timeouts (dispatch e s) = S (timeouts s)
           /\ app (dispatch e s) = app s).
Proof.
  unfold dispatch.
  destruct e as [user| | | |ev|k|i| | | |].
  1-4, 9-10: left; destruct (render (app s)); same.
  - left. destruct (render (app s)); try same.
    destruct (local s); same.
  - left. destruct (render (app s)); try same.
    destruct (local s) as [|st0| | |st]; try same.
    destruct (nth_error _ k) as [u|]; [|same].
    destruct (FileUpload.Status_eqb _ _); same.
  - left. destruct (render (app s)); try same.
    destruct (local s); same.
  - destruct (render (app s)) eqn:R; try (left; same).
    destruct (local s) eqn:L; try (left; same).
    destruct (ProcessingSettings.click_save p st) as [c|] eqn:C;
      [|left; same].
    right. split; [reflexivity|]. exists p, st, c. repeat split; auto.
  - left.
    assert (G : forall s',
              s' = match timeouts s with
                   | O => s
                   | S n => update (setCurrentPage complete)
                              {| app := app s; local := local s;
                                 timeouts := n; console := console s |}
                   end ->
              console s' = console s
              /\ (timeouts s' = timeouts s
                  \/ (TimeoutFires = TimeoutFires
                      /\ timeouts s = S (timeouts s')
                      /\ currentPage (app s') = complete))).
    { intros s' ->. destruct (timeouts s) as [|n] eqn:T;
        [split; [reflexivity | left; exact T]|].
      split; [reflexivity|]. right. repeat split. }
    destruct (render (app s)); now apply G.
Qed.

Lemma well_formed_dispatch (e : Event) (s : Sys) :
  Forall well_formed (console s) ->
  Forall well_formed (console (dispatch e s)).
Proof.
  intros W. destruct (dispatch_ledger e s) as [[E _]|(_ & p & st & c & H)].
  - now rewrite E.
  - destruct H as (_ & _ & C & E & _). rewrite E.
    apply Forall_app. split; [exact W|]. constructor; [|constructor].
    now apply (click_save_well_formed p st).
Qed.

(** X7.  Every configuration that is ever handed to [onProcess], along any
    run of the page, has no password when encryption is off and, when it is
    on, a password whose trimmed length is at least 6. *)
Theorem submissions_are_well_formed (es : list Event) (c : ProcessingConfig.t) :
  In c (console (run es boot)) ->
  match ProcessingConfig.password c with
  | None => ProcessingConfig.encrypt c = false
  | Some pw =>
      ProcessingConfig.encrypt c = true
      /\ (6 <= List.length (JS.trim pw))%nat
  end.
Proof.
  assert (G : forall s, Forall well_formed (console s) ->
                        Forall well_formed (console (run es s))).
  { induction es as [|e es IH]; intros s W; [exact W|].
    simpl. apply IH. now apply well_formed_dispatch. }
  intros H. specialize (G boot (Forall_nil _)).
  rewrite Forall_forall in G. exact (G c H).
Qed.

Lemma ledger_dispatch (e : Event) (s : Sys) :
  (timeouts s <= List.length (console s))%nat ->
  (currentPage (app s) = complete -> console s <> []) ->
  (timeouts (dispatch e s) <= List.length (console (dispatch e s)))%nat
  /\ (currentPage (app (dispatch e s)) = complete ->
      console (dispatch e s) <> []).
Proof.
  intros T C.
  assert (P : currentPage (app (dispatch e s)) = complete ->
              e <> TimeoutFires -> currentPage (app s) = complete).
  { unfold dispatch.
    destruct e as [user| | | |ev|k|i| | | |]; try (intros _ N; now elim N);
      destruct (render (app s)); try (intros H _; exact H);
      try (simpl; intros H _; first [exact H | discriminate]).
    - destruct (local s); intros H _; exact H.
    - destruct (local s) as [|st0| | |st]; try (intros H _; exact H).
      destruct (nth_error _ k) as [u|]; [|intros H _; exact H].
      destruct (FileUpload.Status_eqb _ _); simpl; intros H _;
        first [exact H | discriminate].
    - destruct (local s); intros H _; exact H.
    - destruct (local s); try (intros H _; exact H).
      destruct (ProcessingSettings.click_save p st); intros H _; exact H. }
  destruct (dispatch_ledger e s)
    as [[E [Q|(Ee & Q & Pg)]]|(Ee & p & st & c & _ & _ & _ & E & Q & A)].
  - rewrite E, Q. split; [exact T|]. intros H.
    destruct e; try (apply C, P; [exact H | discriminate]).
    (* a timer event with no timer pending *)
    unfold dispatch in Q, H.
    destruct (timeouts s) as [|n] eqn:Tn.
    + apply C. destruct (render (app s)); exact H.
    + exfalso. destruct (render (app s)); simpl in Q; lia.
  - rewrite E. split; [lia|]. intros _ N. rewrite N in T. simpl in T. lia.
  - rewrite E, Q, length_app. simpl. split; [lia|].
    intros _ N. apply app_eq_nil in N. destruct N as [_ N]. discriminate.
Qed.

(** X8.  Along any run of the page there are never more pending completion
    timers than submitted configurations, and the completion page is shown
    only after at least one configuration has been submitted. *)
Theorem completion_needs_a_submission (es : list Event) :
  let s := run es boot in
  (timeouts s <= List.length (console s))%nat
  /\ (forall fileName, render (app s) = CompletePage fileName ->
        console s <> []).
Proof.
  cbv zeta.
  assert (G : forall s,
            (timeouts s <= List.length (console s))%nat ->
            (currentPage (app s) = complete -> console s <> []) ->
            (timeouts (run es s) <= List.length (console (run es s)))%nat
            /\ (currentPage (app (run es s)) = complete ->
                console (run es s) <> [])).
  { induction es as [|e es IH]; intros s T C; [now split|].
    destruct (ledger_dispatch e s T C) as [T' C']. simpl. now apply IH. }
  destruct (G boot) as [T C]; [simpl; lia | discriminate|].
  split; [exact T|]. intros fileName R. apply C.
  unfold render in R.
  destruct (isLoggedIn (app (run es boot))); simpl in R; [|discriminate].
  destruct (currentPage (app (run es boot))); try reflexivity;
    destruct (selectedFile (app (run es boot))); discriminate.
Qed.

(** X9.  No event other than its own firing removes a pending completion
    timer: Cancel, Logout and the rest leave it running.  When it fires for
    a logged-in user it completes whichever file is selected at that
    moment. *)
Theorem timers_are_never_cancelled (e : Event) (s : Sys) :
  e <> TimeoutFires ->
  (timeouts s <= timeouts (dispatch e s))%nat
  /\ (forall f,
        timeouts s <> O ->
        isLoggedIn (app s) = true ->
        selectedFile (app s) = Some f ->
        render (app (dispatch TimeoutFires s)) = CompletePage (name f)).
Proof.
  intros N. split.
  - destruct (dispatch_ledger e s)
      as [[_ [Q|(Ee & _)]]|(_ & p & st & c & _ & _ & _ & _ & Q & _)];
      [lia | contradiction | lia].
  - intros f T Lg Sel. unfold dispatch.
    destruct (timeouts s) as [|n]; [contradiction|].
    assert (R : render (app (update (setCurrentPage complete)
                   {| app := app s; local := local s; timeouts := n;
                      console := console s |})) = CompletePage (name f)).
    { unfold update, render. simpl. now rewrite Lg, Sel. }
    destruct (render (app s)); exact R.
Qed.

(** X10.  While nobody is logged in, nothing but a login (and a timer that
    was already pending) changes the state of the page. *)
Theorem nothing_happens_before_login (e : Event) (s : Sys) :
  isLoggedIn (app s) = false ->
  (forall user, e <> Login user) ->
  e <> TimeoutFires ->
  dispatch e s = s.
Proof.
  intros L N1 N2.
  assert (R : render (app s) = LoginPage) by (unfold render; now rewrite L).
  unfold dispatch. rewrite R.
  destruct e; try reflexivity; [now elim (N1 user) | now elim N2].
Qed.

(** X11.  Logging out from the dashboard or from the completion page resets
    [App] to its initial hooks; after the next login the user is on a fresh
    dashboard, with no selected file and an empty upload list, whatever the
    session held.  Pending timers and the log are not touched. *)
Theorem logout_discards_the_session (s : Sys) (user : JS.jsstring) :
  (render (app s) = Dashboard
   \/ exists fileName, render (app s) = CompletePage fileName) ->
  let s1 := dispatch Logout s in
  let s2 := dispatch (Login user) s1 in
  app s1 = initial /\ local s1 = AtLogin
  /\ app s2 = {| isLoggedIn := true; username := user;
                 currentPage := upload; selectedFile := None |}
  /\ local s2 = AtDashboard FileUpload.initial
  /\ timeouts s2 = timeouts s /\ console s2 = console s.
Proof.
  intros R. cbv zeta.
  assert (E1 : dispatch Logout s = update handleLogout s).
  { unfold dispatch. destruct R as [R|[fn R]]; now rewrite R. }
  rewrite E1.
  assert (A1 : app (update handleLogout s) = initial) by reflexivity.
  assert (L1 : local (update handleLogout s) = AtLogin).
  { unfold update. simpl. destruct R as [R|[fn R]]; now rewrite R. }
  split; [exact A1|]. split; [exact L1|].
  unfold dispatch. rewrite A1. simpl. repeat split.
Qed.

(** X12.  The upload list does not survive leaving the dashboard:
    "Cancel and go back" on the settings page, and a visit to the profile
    page, both return to a dashboard whose [FileUpload] is mounted afresh,
    while the selected file stays as it was. *)
Theorem upload_list_is_lost_on_leaving (s : Sys) :
  (forall p, render (app s) = ProcessingSettings p ->
     let s' := dispatch CancelSettings s in
     render (app s') = Dashboard
     /\ local s' = AtDashboard FileUpload.initial
     /\ selectedFile (app s') = selectedFile (app s))
  /\ (render (app s) = Dashboard ->
      let s' := run [ViewProfile; BackToDashboard] s in
      render (app s') = Dashboard
      /\ local s' = AtDashboard FileUpload.initial
      /\ selectedFile (app s') = selectedFile (app s)).
Proof.
  assert (Lg : forall scr, render (app s) = scr -> scr <> LoginPage ->
                           isLoggedIn (app s) = true).
  { intros scr R N. unfold render in R.
    destruct (isLoggedIn (app s)); [reflexivity|]. now subst. }
  split.
  - intros p R. cbv zeta. pose proof (Lg _ R ltac:(discriminate)) as L.
    unfold dispatch. rewrite R. unfold update. rewrite R.
    assert (R' : render (handleProcessingBack (app s)) = Dashboard).
    { unfold render. simpl. now rewrite L. }
    simpl. rewrite R'. simpl. repeat split.
  - intros R. cbv zeta. pose proof (Lg _ R ltac:(discriminate)) as L.
    change (run [ViewProfile; BackToDashboard] s)
      with (dispatch BackToDashboard (dispatch ViewProfile s)).
    assert (E1 : dispatch ViewProfile s = update handleViewProfile s).
    { unfold dispatch. now rewrite R. }
    assert (R1 : render (handleViewProfile (app s)) = ProfilePage).
    { unfold render. simpl. rewrite L. simpl.
      now destruct (selectedFile (app s)). }
    assert (R2 : render (handleBackToDashboard (handleViewProfile (app s)))
                 = Dashboard).
    { unfold render. simpl. now rewrite L. }
    rewrite E1.
    assert (E2 : dispatch BackToDashboard (update handleViewProfile s)
                 = update handleBackToDashboard (update handleViewProfile s)).
    { unfold dispatch.
      change (app (update handleViewProfile s))
        with (handleViewProfile (app s)).
      now rewrite R1. }
    rewrite E2. split; [exact R2|]. split; [|reflexivity].
    unfold update at 1. cbn [local].
    change (app (update handleViewProfile s))
      with (handleViewProfile (app s)).
    now rewrite R1, R2.
Qed.

Lemma journey_sample_reaches_completion :
  let f := {| name := JS.lit "a.png"; size := 1024;
              type := JS.lit "image/png" |} in
  let pick := {| FileUpload.picked := f; FileUpload.now := JS.lit "17";
                 FileUpload.random := JS.lit "0.5" |} in
  let es := [ Login (JS.lit "u"); Upload (FileUpload.EvHandleFiles [pick]) ]
            ++ repeat (Upload (FileUpload.EvTick 0)) 10
            ++ [ ProcessFile 0;
                 Settings ProcessingSettings.ToggleEncryption;
                 Settings (ProcessingSettings.TypePassword
                             (JS.lit " abcdef "));
                 SaveSettings; TimeoutFires ] in
  render (app (run es boot)) = CompletePage (JS.lit "a.png")
  /\ map ProcessingConfig.password (console (run es boot))
     = [ Some (JS.lit " abcdef ") ].
Proof. cbv zeta. split; reflexivity. Qed.

Lemma submissions_are_well_formed_witness :
  let f := {| name := JS.lit "a.png"; size := 1024;
              type := JS.lit "image/png" |} in
  let pick := {| FileUpload.picked := f; FileUpload.now := JS.lit "17";
                 FileUpload.random := JS.lit "0.5" |} in
  let es := [ Login (JS.lit "u"); Upload (FileUpload.EvHandleFiles [pick]) ]
            ++ repeat (Upload (FileUpload.EvTick 0)) 10
            ++ [ ProcessFile 0;
                 Settings ProcessingSettings.ToggleEncryption;
                 Settings (ProcessingSettings.TypePassword
                             (JS.lit " abcdef "));
                 SaveSettings; TimeoutFires ] in
  let c := {| ProcessingConfig.compress := false;
              ProcessingConfig.encrypt := true;
              ProcessingConfig.password := Some (JS.lit " abcdef ");
              ProcessingConfig.outputFileName := JS.lit "a.png" |} in
  In c (console (run es boot))
  /\ (6 <= List.length (JS.trim (JS.lit " abcdef ")))%nat.
Proof.
  intros f pick es c.
  assert (E : console (run es boot) = [c]) by reflexivity.
  assert (H : In c (console (run es boot))) by (rewrite E; now left).
  split; [exact H|].
  exact (proj2 (submissions_are_well_formed es c H)).
Defined.

Lemma completion_needs_a_submission_witness :
  let f := {| name := JS.lit "a.png"; size := 1024;
              type := JS.lit "image/png" |} in
  let pick := {| FileUpload.picked := f; FileUpload.now := JS.lit "17";
                 FileUpload.random := JS.lit "0.5" |} in
  let es := [ Login (JS.lit "u"); Upload (FileUpload.EvHandleFiles [pick]) ]
            ++ repeat (Upload (FileUpload.EvTick 0)) 10
            ++ [ ProcessFile 0; SaveSettings; TimeoutFires ] in
  render (app (run es boot)) = CompletePage (JS.lit "a.png")
  /\ console (run es boot) <> [].
Proof.
  intros f pick es.
  assert (R : render (app (run es boot)) = CompletePage (JS.lit "a.png"))
    by reflexivity.
  split; [exact R|].
  exact (proj2 (completion_needs_a_submission es) (JS.lit "a.png") R).
Defined.

Lemma timers_are_never_cancelled_witness :
  let a := {| name := JS.lit "a.png"; size := 1024;
              type := JS.lit "image/png" |} in
  let b := {| name := JS.lit "b.pdf"; size := 2048;
              type := JS.lit "application/pdf" |} in
  let s := {| app := handleFileSelect b
                       (handleLogin (JS.lit "u") initial);
              local := AtSettings ProcessingSettings.initial;
              timeouts := 1;
              console := [ ProcessingSettings.handleSaveSettings
                             {| ProcessingSettings.fileName := name a;
                                ProcessingSettings.fileSize := size a;
                                ProcessingSettings.fileType := type a |}
                             ProcessingSettings.initial ] |} in
  CancelSettings <> TimeoutFires
  /\ (timeouts s <= timeouts (dispatch CancelSettings s))%nat
  /\ render (app (dispatch TimeoutFires s)) = CompletePage (JS.lit "b.pdf").
Proof.
  intros a b s.
  assert (N : CancelSettings <> TimeoutFires) by discriminate.
  assert (T : timeouts s <> O) by discriminate.
  destruct (timers_are_never_cancelled CancelSettings s N) as [A B].
  split; [exact N|]. split; [exact A|].
  exact (B b T eq_refl eq_refl).
Defined.

Lemma nothing_happens_before_login_witness :
  isLoggedIn (app boot) = false
  /\ dispatch (ProcessFile 0) boot = boot
  /\ dispatch SaveSettings boot = boot.
Proof.
  assert (L : isLoggedIn (app boot) = false) by reflexivity.
  split; [exact L|]. split.
  - apply (nothing_happens_before_login (ProcessFile 0) boot L);
      [intros user | ]; discriminate.
  - apply (nothing_happens_before_login SaveSettings boot L);
      [intros user | ]; discriminate.
Defined.

Lemma logout_discards_the_session_witness :
  let f := {| name := JS.lit "a.png"; size := 1024;
              type := JS.lit "image/png" |} in
  let pick := {| FileUpload.picked := f; FileUpload.now := JS.lit "17";
                 FileUpload.random := JS.lit "0.5" |} in
  let s := run [ Login (JS.lit "u");
                 Upload (FileUpload.EvHandleFiles [pick]) ] boot in
  render (app s) = Dashboard
  /\ local s <> AtDashboard FileUpload.initial
  /\ local (dispatch (Login (JS.lit "v")) (dispatch Logout s))
     = AtDashboard FileUpload.initial.
Proof.
  intros f pick s.
  assert (R : render (app s) = Dashboard) by reflexivity.
  destruct (logout_discards_the_session s (JS.lit "v") (or_introl R))
    as (_ & _ & _ & A & _).
  split; [exact R|]. split; [discriminate | exact A].
Defined.

Lemma upload_list_is_lost_on_leaving_witness :
  let f := {| name := JS.lit "a.png"; size := 1024;
              type := JS.lit "image/png" |} in
  let pick := {| FileUpload.picked := f; FileUpload.now := JS.lit "17";
                 FileUpload.random := JS.lit "0.5" |} in
  let s := run ([ Login (JS.lit "u");
                  Upload (FileUpload.EvHandleFiles [pick]) ]
                ++ repeat (Upload (FileUpload.EvTick 0)) 10
                ++ [ ProcessFile 0 ]) boot in
  render (app s)
  = ProcessingSettings {| ProcessingSettings.fileName := name f;
                          ProcessingSettings.fileSize := size f;
                          ProcessingSettings.fileType := type f |}
  /\ local (dispatch CancelSettings s) = AtDashboard FileUpload.initial
  /\ selectedFile (app (dispatch CancelSettings s)) = Some f.
Proof.
  intros f pick s.
  assert (R : render (app s)
              = ProcessingSettings
                  {| ProcessingSettings.fileName := name f;
                     ProcessingSettings.fileSize := size f;
                     ProcessingSettings.fileType := type f |})
    by reflexivity.
  destruct (proj1 (upload_list_is_lost_on_leaving s) _ R) as (_ & A & B).
  split; [exact R|]. split; [exact A | exact B].
Defined.

End Submissions.

(** ** The settings draft *)

Section Drafts.
Import JS ProcessingSettings.

Lemma trimStart_blank_prefix (ws s : jsstring) :
  forallb is_whitespace ws = true -> trimStart (ws ++ s) = trimStart s.
Proof.
  induction ws as [|c ws IH]; simpl; [reflexivity|].
  intros H. apply andb_true_iff in H. destruct H as [-> H]. now apply IH.
Qed.

Lemma trimStart_blank (s : jsstring) :
  trimStart s = [] <-> forallb is_whitespace s = true.
Proof.
  induction s as [|c s IH]; simpl; [tauto|].
  destruct (is_whitespace c); simpl; [exact IH|].
  split; discriminate.
Qed.

Lemma trimStart_suffix (s x : jsstring) :
  trimStart s <> [] -> trimStart (s ++ x) = trimStart s ++ x.
Proof.
  induction s as [|c s IH]; simpl; [congruence|].
  destruct (is_whitespace c); [exact IH | reflexivity].
Qed.

Lemma trimEnd_blank_suffix (s ws : jsstring) :
  forallb is_whitespace ws = true -> trimEnd (s ++ ws) = trimEnd s.
Proof.
  intros H. unfold trimEnd. rewrite rev_app_distr.
  rewrite trimStart_blank_prefix; [reflexivity|].
  rewrite forallb_forall in *. intros c Hc. apply H. now apply in_rev.
Qed.

Lemma trim_padding (a s b : jsstring) :
  forallb is_whitespace a = true -> forallb is_whitespace b = true ->
  trim (a ++ s ++ b) = trim s.
Proof.
  intros Ha Hb. unfold trim. rewrite trimStart_blank_prefix by exact Ha.
  destruct (trimStart s) as [|c r] eqn:E.
  - assert (B : trimStart (s ++ b) = []).
    { apply trimStart_blank. rewrite forallb_app.
      apply trimStart_blank in E. now rewrite E, Hb. }
    now rewrite B.
  - rewrite trimStart_suffix by (rewrite E; discriminate).
    rewrite E. now apply trimEnd_blank_suffix.
Qed.

(** X13.  White space typed before or after the password does not count
    towards the six characters, yet it is part of the password that is
    handed over. *)
Theorem padding_is_not_counted (p : Props) (s : State) (a pw b : jsstring) :
  forallb is_whitespace a = true ->
  forallb is_whitespace b = true ->
  canProceed (setPassword (a ++ pw ++ b) s) = canProceed (setPassword pw s)
  /\ (encryptEnabled s = true ->
      ProcessingConfig.password
        (handleSaveSettings p (setPassword (a ++ pw ++ b) s))
      = Some (a ++ pw ++ b)).
Proof.
  intros Ha Hb. split.
  - unfold canProceed. simpl. now rewrite trim_padding.
  - intros E. simpl. now rewrite E.
Qed.

(** X14.  "Reset to Default" always leaves a draft that can be saved, and
    saving it hands over the plain configuration (no compression, no
    encryption, no password, the file's own name); reset is idempotent and
    restores the initial hooks except for the show-password switch. *)
Theorem reset_makes_submittable (p : Props) (s : State) :
  click_save p (handleReset s)
  = Some {| ProcessingConfig.compress := false;
            ProcessingConfig.encrypt := false;
            ProcessingConfig.password := None;
            ProcessingConfig.outputFileName := fileName p |}
  /\ handleReset (handleReset s) = handleReset s
  /\ handleReset s = setShowPassword (showPassword s) initial
  /\ shows_password_error (handleReset s) = false
  /\ getEstimatedSize p (handleReset s) = of_Z (fileSize p).
Proof. repeat split. Qed.

Lemma padding_is_not_counted_witness :
  let p := {| fileName := JS.lit "a.png"; fileSize := 1024;
              fileType := JS.lit "image/png" |} in
  let s := input ToggleEncryption initial in
  forallb is_whitespace (JS.lit "  ") = true
  /\ canProceed (setPassword (JS.lit "  " ++ JS.lit "abcde" ++ JS.lit "  ") s)
     = false
  /\ canProceed (setPassword (JS.lit "abcde") s) = false.
Proof.
  intros p s.
  assert (H : forallb is_whitespace (JS.lit "  ") = true) by reflexivity.
  destruct (padding_is_not_counted p s (JS.lit "  ") (JS.lit "abcde")
              (JS.lit "  ") H H) as [A _].
  split; [exact H|]. split; [rewrite A|]; reflexivity.
Defined.

End Drafts.

(** ** Bounds of the size estimate *)

Section EstimateBounds.
Import Estimate ProcessingSettings.
Open Scope Z_scope.

(** [Math.round(n * 0.6)] on the doubles, for an integer [n] below 2^50. *)
Lemma Math_round_six_tenths (n : Z) :
  0 <= n < 2 ^ 50 ->
  JS.Math_round
    (JS.mul (JS.of_Z n) (S754_finite false 5404319552844595 (-53)))
  = JS.of_Z (round_six_tenths n).
Proof.
  intros [Hn0 Hn50]. unfold round_six_tenths.
  destruct (Z.eq_dec n 0) as [->|Hnz]; [reflexivity|].
  assert (H53 : 0 < n < 2 ^ 53).
  { split; [lia|]. change (2 ^ 50) with 1125899906842624 in Hn50.
    change (2 ^ 53) with 9007199254740992. lia. }
  destruct (of_Z_pos n H53) as (mn & d & E & Hd & Hn & Hmn).
  rewrite E. unfold JS.mul, SFmul. cbn [xorb].
  (* the exponent of the size *)
  assert (Hd50 : d <= 50).
  { destruct (Z_lt_le_dec 50 d) as [C|C]; [|assumption].
    assert (2 ^ 50 <= 2 ^ (d - 1)) by (apply Z.pow_le_mono_r; lia). lia. }
  set (D := 2 ^ (53 - d)) in *.
  assert (HD : 8 <= D).
  { change 8 with (2 ^ 3). apply Z.pow_le_mono_r; lia. }
  assert (Bmn : 2 ^ 52 <= Zpos mn < 2 ^ 53).
  { rewrite Hmn. unfold D.
    replace (2 ^ 52) with (2 ^ (d - 1) * 2 ^ (53 - d))
      by (rewrite <- Z.pow_add_r by lia; f_equal; lia).
    replace (2 ^ 53) with (2 ^ d * 2 ^ (53 - d))
      by (rewrite <- Z.pow_add_r by lia; f_equal; lia).
    assert (0 < 2 ^ (53 - d)) by (apply Z.pow_pos_nonneg; lia).
    split; [apply Z.mul_le_mono_nonneg_r; lia
           |apply Z.mul_lt_mono_pos_r; lia]. }
  (* the product has 105 or 106 bits *)
  set (P := (mn * 5404319552844595)%positive).
  assert (EP : Zpos P = Zpos mn * 5404319552844595) by reflexivity.
  assert (BP : 2 ^ 104 <= Zpos P < 2 ^ 106).
  { rewrite EP. change (2 ^ 52) with 4503599627370496 in Bmn.
    change (2 ^ 53) with 9007199254740992 in Bmn.
    change (2 ^ 104) with 20282409603651670423947251286016.
    change (2 ^ 106) with 81129638414606681695789005144064. lia. }
  destruct (digits2_pos_bounds P) as [PL PU].
  assert (Hdg : 105 <= Zpos (digits2_pos P) <= 106).
  { split.
    - destruct (Z_lt_le_dec (Zpos (digits2_pos P)) 105) as [C|C]; [|lia].
      assert (2 ^ Zpos (digits2_pos P) <= 2 ^ 104)
        by (apply Z.pow_le_mono_r; lia). lia.
    - destruct (Z_lt_le_dec 106 (Zpos (digits2_pos P))) as [C|C]; [|lia].
      assert (2 ^ 106 <= 2 ^ (Zpos (digits2_pos P) - 1))
        by (apply Z.pow_le_mono_r; lia). lia. }
  pose proof (binary_round_aux_nearest P (d - 53 + -53)) as R.
  cbv zeta in R.
  set (sh := Zpos (digits2_pos P) - 53) in *.
  destruct R as (m & g & Er & Hg & Herr); try lia.
  rewrite Er. unfold JS.Math_round.
  replace (0 <=? d - 53 + -53 + g) with false
    by (symmetry; apply Z.leb_gt; lia).
  cbn [cond_Zopp].
  unfold JS.of_Z. f_equal.
  (* the integer *)
  replace (- (d - 53 + -53 + g)) with (106 - d - g) by lia.
  replace (1 - (d - 53 + -53 + g)) with (1 + (106 - d - g)) by lia.
  rewrite (Z.pow_add_r 2 1) by lia. change (2 ^ 1) with 2.
  assert (HX : 0 < 2 ^ g) by (apply Z.pow_pos_nonneg; lia).
  assert (HA : 0 < 2 ^ (106 - d - g)) by (apply Z.pow_pos_nonneg; lia).
  assert (Hsh : 2 ^ sh <= 2 ^ 53) by (apply Z.pow_le_mono_r; lia).
  apply (nearest_six_tenths n D (Zpos m) (2 ^ (106 - d - g)) (2 ^ g));
    try assumption; try lia.
  rewrite <- Z.pow_add_r by lia. unfold D.
  rewrite <- Z.pow_add_r by lia. f_equal. lia.
Qed.

Lemma round_six_tenths_bounds (n : Z) :
  0 <= n ->
  0 <= round_six_tenths n <= n
  /\ -4 <= 10 * round_six_tenths n - 6 * n <= 5
  /\ (2 <= n -> round_six_tenths n < n).
Proof.
  intros H. unfold round_six_tenths.
  pose proof (Z.div_mod (6 * n + 5) 10 ltac:(lia)).
  pose proof (Z.mod_pos_bound (6 * n + 5) 10 ltac:(lia)).
  lia.
Qed.

(** X15.  With compression on and sizes below 2^50 bytes, the estimate is a
    whole number of bytes between 0 and the original size, within half a
    byte of 60% of it, strictly smaller than the original from 2 bytes on,
    and a larger file never gets a smaller estimate. *)
Theorem estimate_never_exceeds_size (p q : Props) (s : State) :
  compressEnabled s = true ->
  0 <= fileSize p <= fileSize q ->
  fileSize q < 2 ^ 50 ->
  exists k l,
    getEstimatedSize p s = JS.of_Z k
    /\ getEstimatedSize q s = JS.of_Z l
    /\ 0 <= k <= fileSize p
    /\ -4 <= 10 * k - 6 * fileSize p <= 5
    /\ (2 <= fileSize p -> k < fileSize p)
    /\ k <= l.
Proof.
  intros C Hp Hq.
  exists (round_six_tenths (fileSize p)), (round_six_tenths (fileSize q)).
  unfold getEstimatedSize, getCompressionReduction. rewrite C. cbn [negb].
  rewrite one_minus_reduction.
  rewrite !Math_round_six_tenths by lia.
  destruct (round_six_tenths_bounds (fileSize p)) as (A & B & D); [lia|].
  repeat split; try lia.
  unfold round_six_tenths. apply Z.div_le_mono; lia.
Qed.

Lemma estimate_never_exceeds_size_witness :
  let p := {| fileName := JS.lit "a.png"; fileSize := 1;
              fileType := JS.lit "image/png" |} in
  let q := {| fileName := JS.lit "b.pdf"; fileSize := 10 * 1024 * 1024;
              fileType := JS.lit "application/pdf" |} in
  let s := input ToggleCompression initial in
  compressEnabled s = true
  /\ 0 <= fileSize p <= fileSize q
  /\ fileSize q < 2 ^ 50
  /\ exists k l, getEstimatedSize p s = JS.of_Z k
                 /\ getEstimatedSize q s = JS.of_Z l /\ k <= l.
Proof.
  intros p q s.
  assert (H1 : 0 <= fileSize p <= fileSize q) by (cbn; lia).
  assert (H2 : fileSize q < 2 ^ 50) by (cbn; lia).
  destruct (estimate_never_exceeds_size p q s eq_refl H1 H2)
    as (k & l & A & B & _ & _ & _ & C).
  split; [reflexivity|]. split; [exact H1|]. split; [exact H2|].
  exists k, l. split; [exact A|]. split; [exact B | exact C].
Defined.

End EstimateBounds.

(** ** The profile form *)

Section ProfileFacts.
Import JS ProfileSection Profile.

Lemma validateProfileImage_accepts (f : File) :
  validateProfileImage f = None
  <-> In (type f) PROFILE_IMAGE_TYPES
      /\ (size f <= MAX_PROFILE_IMAGE_SIZE)%Z.
Proof.
  unfold validateProfileImage.
  destruct (includes PROFILE_IMAGE_TYPES (type f)) eqn:T; cbn [negb].
  - apply includes_In in T.
    destruct (size f >? MAX_PROFILE_IMAGE_SIZE)%Z eqn:S.
    + apply Z.gtb_lt in S. split; [discriminate | lia].
    + rewrite Z.gtb_ltb in S. apply Z.ltb_ge in S.
      split; [intros _; now split | reflexivity].
  - apply includes_not_In in T. split; [discriminate|].
    intros [C _]. contradiction.
Qed.

Lemma sublist_includes (xs ys : list jsstring) (x : jsstring) :
  forallb (includes ys) xs = true -> In x xs -> In x ys.
Proof.
  intros H Hx. rewrite forallb_forall in H. now apply includes_In, H.
Qed.

(** X16.  Whatever the profile-image validator accepts, the upload validator
    accepts too.  A file of a listed document type is refused as a profile
    image for its format, and accepted for upload when it is at most
    10 MiB.  The upload allow-list is the image list, WebP and the document
    list. *)
Theorem profile_images_are_uploadable (f : File) :
  (validateProfileImage f = None -> FileUpload.validateFile f = None)
  /\ (In (type f) DOCUMENT_TYPES ->
      validateProfileImage f
      = Some (lit "Only PNG, JPG, JPEG, and GIF formats are allowed")
      /\ ((size f <= 10 * 1024 * 1024)%Z ->
          FileUpload.validateFile f = None))
  /\ FileUpload.ALLOWED_FILE_TYPES
     = PROFILE_IMAGE_TYPES ++ [lit "image/webp"] ++ DOCUMENT_TYPES.
Proof.
  split; [|split].
  - intros H. apply validateProfileImage_accepts in H. destruct H as [T S].
    apply validateFile_accepts. split.
    + apply (sublist_includes PROFILE_IMAGE_TYPES); [reflexivity | exact T].
    + unfold MAX_PROFILE_IMAGE_SIZE in S. unfold FileUpload.MAX_FILE_SIZE.
      lia.
  - intros D. split.
    + unfold validateProfileImage.
      replace (includes PROFILE_IMAGE_TYPES (type f)) with false;
        [reflexivity|].
      symmetry. apply includes_not_In. intros T.
      simpl in D, T.
      repeat (destruct D as [D|D]; [rewrite <- D in T;
        repeat (destruct T as [T|T]; [discriminate T|]); exact T|]).
      exact D.
    + intros S. apply validateFile_accepts. split.
      * apply (sublist_includes DOCUMENT_TYPES); [reflexivity | exact D].
      * unfold FileUpload.MAX_FILE_SIZE. lia.
  - reflexivity.
Qed.

Lemma icon_of_document (t : jsstring) :
  In t DOCUMENT_TYPES -> getFileIcon t <> [55357; 56526]%N.
Proof.
  intros H. simpl in H.
  repeat (destruct H as [H|H]; [subst t; vm_compute; discriminate|]).
  contradiction.
Qed.

Lemma readers_left (k : nat) (fs : list File) (f : File) :
  In f (firstn k fs ++ skipn (S k) fs) -> In f fs.
Proof.
  revert k; induction fs as [|g fs IH]; intros k H.
  - destruct k; simpl in H; contradiction.
  - destruct k as [|k]; simpl in H.
    + now right.
    + destruct H as [H|H]; [now left | right; now apply (IH k)].
Qed.

Lemma documents_step (e : Event) (s : State) :
  Forall document_ok (documents s) ->
  Forall (fun f => validateProfileImage f = None) (reading s) ->
  Forall document_ok (documents (step e s))
  /\ Forall (fun f => validateProfileImage f = None) (reading (step e s)).
Proof.
  intros D R.
  assert (Add : forall ps s0, documents s0 = documents s ->
            Forall document_ok (documents (addDocuments ps s0))).
  { intros ps s0 E. unfold addDocuments, setDocuments. cbn [documents].
    rewrite E. apply Forall_app. split; [exact D|].
    apply Forall_map, Forall_forall. intros p Hp.
    apply filter_In in Hp. destruct Hp as [_ Hp]. apply includes_In in Hp.
    unfold document_ok. cbn [file preview].
    split; [exact Hp|]. split; [reflexivity|].
    now apply icon_of_document. }
  assert (Img : forall f s0, documents s0 = documents s ->
            reading s0 = reading s ->
            Forall document_ok (documents (handleProfileImageChange f s0))
            /\ Forall (fun f => validateProfileImage f = None)
                 (reading (handleProfileImageChange f s0))).
  { intros f s0 E1 E2. unfold handleProfileImageChange.
    destruct (validateProfileImage f) eqn:V; simpl; rewrite E1, E2.
    - now split.
    - split; [exact D|]. apply Forall_app. split; [exact R|].
      constructor; [exact V | constructor]. }
  destruct e as [| |f|f|k result| | | |ps|ps|i|fld v| |].
  - now split.
  - now split.
  - unfold step, handleProfileDrop.
    destruct f as [g|]; [now apply Img | now split].
  - unfold step, handleProfileFileInput.
    destruct f as [g|]; [now apply Img | now split].
  - unfold step, onloadend.
    destruct (nth_error (reading s) k) as [f0|]; [|now split].
    cbn [documents reading setProfileImage]. split; [exact D|].
    rewrite Forall_forall in *. intros f Hf. apply R.
    now apply (readers_left k).
  - unfold step. destruct (profileImage s) as [[|c r]|]; now split.
  - now split.
  - now split.
  - unfold step, handleDocumentsDrop. split; [now apply Add | exact R].
  - unfold step, handleDocumentsInput. split; [now apply Add | exact R].
  - unfold step, removeDocument, setDocuments. cbn [documents reading].
    split; [|exact R]. rewrite Forall_forall in *. intros d Hd.
    apply filter_In in Hd. now apply D.
  - destruct fld; now split.
  - now split.
  - split; [constructor | exact R].
Qed.

(** X17.  Along any run of the profile form, every document in the list has
    a listed document type and is shown with the icon of its kind, never
    the fallback paperclip; and every file a [FileReader] is reading is one
    the profile-image validator accepted. *)
Theorem documents_stay_listed (es : list Event) :
  let s := run es initial in
  (forall d, In d (documents s) ->
     In (type (file d)) DOCUMENT_TYPES
     /\ preview d = getFileIcon (type (file d))
     /\ preview d <> [55357; 56526]%N)
  /\ (forall f, In f (reading s) ->
        In (type f) PROFILE_IMAGE_TYPES
        /\ (size f <= 5 * 1024 * 1024)%Z).
Proof.
  cbv zeta.
  assert (G : forall s,
            Forall document_ok (documents s) ->
            Forall (fun f => validateProfileImage f = None) (reading s) ->
            Forall document_ok (documents (run es s))
            /\ Forall (fun f => validateProfileImage f = None)
                 (reading (run es s))).
  { induction es as [|e es IH]; intros s D R; [now split|].
    destruct (documents_step e s D R) as [D' R']. simpl. now apply IH. }
  destruct (G initial (Forall_nil _) (Forall_nil _)) as [D R].
  rewrite Forall_forall in D, R. split.
  - intros d Hd. exact (D d Hd).
  - intros f Hf. apply validateProfileImage_accepts. now apply R.
Qed.

Lemma get_set_property (k : string) (v : jsstring) (o : Errors) :
  get_property k (set_property k v o) = Some v.
Proof.
  induction o as [|[k' v'] o IH]; simpl.
  - now rewrite String.eqb_refl.
  - destruct (String.eqb k' k) eqn:E; simpl.
    + now rewrite String.eqb_refl.
    + now rewrite E.
Qed.

(** X18.  Choosing a profile image never changes the picture, the documents
    or the form at once.  A refused image leaves its message under
    [errors.profileImage] and starts no reader; an accepted one replaces
    the message by the empty string and starts one reader, whose end sets
    the picture to what it read.  Neither Cancel nor removing the picture
    clears the message. *)
Theorem image_change_outcomes (f : File) (s : State) :
  let s' := handleProfileImageChange f s in
  profileImage s' = profileImage s
  /\ documents s' = documents s
  /\ profileData s' = profileData s
  /\ match validateProfileImage f with
     | Some message =>
         get_property "profileImage" (errors s') = Some message
         /\ truthy message = true
         /\ reading s' = reading s
     | None =>
         get_property "profileImage" (errors s') = Some []
         /\ reading s' = reading s ++ [f]
         /\ (forall result,
               profileImage (onloadend (List.length (reading s)) result s')
               = result
               /\ reading (onloadend (List.length (reading s)) result s')
                  = reading s)
     end
  /\ errors (handleCancel s') = errors s'
  /\ errors (removeProfileImage s') = errors s'.
Proof.
  cbv zeta. unfold handleProfileImageChange.
  destruct (validateProfileImage f) as [message|] eqn:V.
  - repeat split; try reflexivity.
    + cbn [errors setErrors]. apply get_set_property.
    + unfold validateProfileImage in V.
      destruct (negb _); [inversion V; reflexivity|].
      destruct (size f >? _)%Z; [inversion V; reflexivity | discriminate].
  - repeat split; try reflexivity.
    + cbn [errors setErrors readAsDataURL]. apply get_set_property.
    + unfold onloadend. cbn [reading readAsDataURL setErrors].
      rewrite nth_error_app2, Nat.sub_diag by lia. reflexivity.
    + unfold onloadend. cbn [reading readAsDataURL setErrors].
      rewrite nth_error_app2, Nat.sub_diag by lia.
      cbn [nth_error reading setProfileImage].
      rewrite firstn_app, Nat.sub_diag, firstn_all. simpl firstn.
      rewrite skipn_app, skipn_all2 by (simpl; lia).
      replace (S (List.length (reading s)) - List.length (reading s))%nat
        with 1%nat by lia.
      simpl. now rewrite !app_nil_r.
Qed.

(** X19.  [addDocuments] appends the files of a listed document type, in
    order and whatever their size, and drops the others without a message;
    adding in one batch or in two is the same.  [removeDocument] deletes
    the documents with the given id and no other, and is idempotent. *)
Theorem addDocuments_filters_by_type (a b : list FileUpload.Pick) (s : State) :
  map file (documents (addDocuments a s))
  = map file (documents s)
    ++ filter (fun f => includes DOCUMENT_TYPES (type f))
         (map FileUpload.picked a)
  /\ errors (addDocuments a s) = errors s
  /\ profileImage (addDocuments a s) = profileImage s
  /\ reading (addDocuments a s) = reading s
  /\ addDocuments (a ++ b) s = addDocuments b (addDocuments a s)
  /\ (forall i,
        documents (removeDocument i (removeDocument i s))
        = documents (removeDocument i s)
        /\ forall d, In d (documents (removeDocument i s))
             <-> In d (documents s) /\ id d <> i).
Proof.
  unfold addDocuments, setDocuments. cbn [documents errors profileImage
    reading isDraggingProfile isDraggingDocs profileData].
  repeat split.
  - rewrite map_app, map_map. cbn [file]. f_equal.
    induction a as [|p a IH]; [reflexivity|].
    cbn [map filter].
    destruct (includes DOCUMENT_TYPES (type (FileUpload.picked p)));
      cbn [map]; [f_equal|]; exact IH.
  - rewrite filter_app, map_app, app_assoc. reflexivity.
  - unfold removeDocument, setDocuments. cbn [documents].
    induction (documents s) as [|d ds IH]; [reflexivity|].
    simpl. destruct (str_eqb (id d) i) eqn:E; simpl; [exact IH|].
    rewrite E. simpl. now rewrite IH.
  - unfold removeDocument, setDocuments in H. cbn [documents] in H.
    apply filter_In in H. tauto.
  - unfold removeDocument, setDocuments in H. cbn [documents] in H.
    apply filter_In in H. destruct H as [_ H].
    apply negb_true_iff in H. now apply str_eqb_neq.
  - intros [H N]. unfold removeDocument, setDocuments. cbn [documents].
    apply filter_In. split; [exact H|].
    apply negb_true_iff. now apply str_eqb_neq.
Qed.

Lemma profile_images_are_uploadable_witness :
  let img := {| name := JS.lit "me.gif"; size := 5 * 1024 * 1024;
                type := JS.lit "image/gif" |} in
  let doc := {| name := JS.lit "cv.pdf"; size := 6 * 1024 * 1024;
                type := JS.lit "application/pdf" |} in
  validateProfileImage img = None
  /\ FileUpload.validateFile img = None
  /\ In (type doc) DOCUMENT_TYPES
  /\ FileUpload.validateFile doc = None.
Proof.
  intros img doc.
  assert (H : validateProfileImage img = None) by reflexivity.
  assert (D : In (type doc) DOCUMENT_TYPES)
    by (apply includes_In; reflexivity).
  assert (S : (size doc <= 10 * 1024 * 1024)%Z) by (simpl; lia).
  split; [exact H|].
  split; [exact (proj1 (profile_images_are_uploadable img) H)|].
  split; [exact D|].
  exact (proj2 (proj1 (proj2 (profile_images_are_uploadable doc)) D) S).
Defined.

Lemma documents_stay_listed_witness :
  let pdf := {| FileUpload.picked :=
                  {| name := JS.lit "cv.pdf"; size := 20 * 1024 * 1024;
                     type := JS.lit "application/pdf" |};
                FileUpload.now := JS.lit "17";
                FileUpload.random := JS.lit "0.5" |} in
  let png := {| FileUpload.picked :=
                  {| name := JS.lit "a.png"; size := 1024;
                     type := JS.lit "image/png" |};
                FileUpload.now := JS.lit "17";
                FileUpload.random := JS.lit "0.25" |} in
  let es := [ DropDocs [png; pdf];
              InputProfile (Some (FileUpload.picked png));
              InputProfile (Some (FileUpload.picked pdf)); Cancel;
              InputDocs (Some [pdf; png]) ] in
  map (fun d => name (file d)) (documents (run es initial))
  = [ JS.lit "cv.pdf" ]
  /\ reading (run es initial) = [ FileUpload.picked png ]
  /\ (forall d, In d (documents (run es initial)) ->
        In (type (file d)) DOCUMENT_TYPES).
Proof.
  intros pdf png es.
  split; [reflexivity|]. split; [reflexivity|].
  intros d Hd. exact (proj1 (proj1 (documents_stay_listed es) d Hd)).
Defined.

End ProfileFacts.

(** ** What a submission names, and the hints of the settings page *)

Section Names.
Import App Journey.

Lemma run_after (a b : list Event) (s : Sys) :
  run (a ++ b) s = run b (run a s).
Proof. unfold run. apply fold_left_app. Qed.

Lemma admissible_so_far (a b : list Event) (s : Sys) :
  admissible_trace s (a ++ b) = true -> admissible_trace s a = true.
Proof.
  revert s; induction a as [|e a IH]; intros s H; [reflexivity|].
  simpl in *. apply andb_true_iff in H. destruct H as [H1 H2].
  rewrite H1. simpl. now apply IH.
Qed.

(** The configuration that a click on the submit button logs is named after
    the file that is selected at the time of the click. *)
Lemma submission_names_selection (s : Sys) (c : ProcessingConfig.t) :
  console (dispatch SaveSettings s) = console s ++ [c] ->
  exists f, selectedFile (app s) = Some f
            /\ ProcessingConfig.outputFileName c = name f.
Proof.
  intros H.
  destruct (dispatch_ledger SaveSettings s)
    as [[E _]|(_ & p & st & c' & R & _ & C & E & _)].
  - rewrite E in H. exfalso.
    assert (L : List.length (console s)
                = List.length (console s ++ [c])) by (now rewrite <- H).
    rewrite length_app in L. simpl in L. lia.
  - rewrite E in H. apply app_inv_head in H. inversion H; subst c'.
    destruct (click_save_well_formed p st c C) as [_ N]. rewrite N.
    unfold render in R.
    destruct (isLoggedIn (app s)); simpl in R; [|discriminate].
    destruct (currentPage (app s));
      destruct (selectedFile (app s)) as [f|] eqn:F; try discriminate.
    inversion R; subst p. exists f. now split.
Qed.

(** X20.  Along every run of the page in which upload ids are new, each
    configuration found in the log was appended by a click on the submit
    button at some point [es1] of the run, and its [outputFileName] is the
    name of the file that was selected at that point, a file that
    [validateFile] accepts. *)
Theorem submissions_name_validated_files
        (es : list Event) (c : ProcessingConfig.t) :
  admissible_trace boot es = true ->
  In c (console (run es boot)) ->
  exists es1 es2 f,
    es = es1 ++ SaveSettings :: es2
    /\ console (dispatch SaveSettings (run es1 boot))
       = console (run es1 boot) ++ [c]
    /\ selectedFile (app (run es1 boot)) = Some f
    /\ FileUpload.validateFile f = None
    /\ ProcessingConfig.outputFileName c = name f.
Proof.
  induction es as [|e es IH] using rev_ind; intros A H.
  - contradiction.
  - pose proof (admissible_so_far es [e] boot A) as A1.
    rewrite run_after in H. simpl in H.
    assert (Old : In c (console (run es boot)) ->
                  exists es1 es2 f,
                    es ++ [e] = es1 ++ SaveSettings :: es2
                    /\ console (dispatch SaveSettings (run es1 boot))
                       = console (run es1 boot) ++ [c]
                    /\ selectedFile (app (run es1 boot)) = Some f
                    /\ FileUpload.validateFile f = None
                    /\ ProcessingConfig.outputFileName c = name f).
    { intros Hc. destruct (IH A1 Hc) as (es1 & es2 & f & E & R).
      exists es1, (es2 ++ [e]), f. split; [|exact R].
      rewrite E, <- app_assoc. reflexivity. }
    destruct (dispatch_ledger e (run es boot))
      as [[E _]|(Ee & p & st & c' & _ & _ & _ & E & _)].
    + rewrite E in H. now apply Old.
    + rewrite E in H. apply in_app_or in H. destruct H as [H|[H|[]]];
        [now apply Old|]. subst c' e.
      destruct (submission_names_selection (run es boot) c E)
        as (f & Sel & N).
      exists es, [], f. split; [reflexivity|]. split; [exact E|].
      split; [exact Sel|]. split; [|exact N].
      destruct (good_run es boot A1 I (fun g Q => ltac:(discriminate Q)))
        as [_ S].
      now apply S.
Qed.

Lemma submissions_name_validated_files_witness :
  let f := {| name := JS.lit "a.png"; size := 1024;
              type := JS.lit "image/png" |} in
  let pick := {| FileUpload.picked := f; FileUpload.now := JS.lit "17";
                 FileUpload.random := JS.lit "0.5" |} in
  let es := [ Login (JS.lit "u"); Upload (FileUpload.EvHandleFiles [pick]) ]
            ++ repeat (Upload (FileUpload.EvTick 0)) 10
            ++ [ ProcessFile 0; SaveSettings ] in
  let c := {| ProcessingConfig.compress := false;
              ProcessingConfig.encrypt := false;
              ProcessingConfig.password := None;
              ProcessingConfig.outputFileName := JS.lit "a.png" |} in
  admissible_trace boot es = true
  /\ In c (console (run es boot))
  /\ exists es1 es2 g,
       es = es1 ++ SaveSettings :: es2
       /\ console (dispatch SaveSettings (run es1 boot))
          = console (run es1 boot) ++ [c]
       /\ selectedFile (app (run es1 boot)) = Some g
       /\ FileUpload.validateFile g = None
       /\ ProcessingConfig.outputFileName c = name g.
Proof.
  intros f pick es c.
  assert (A : admissible_trace boot es = true) by reflexivity.
  assert (E : console (run es boot) = [c]) by reflexivity.
  assert (H : In c (console (run es boot))) by (rewrite E; now left).
  split; [exact A|]. split; [exact H|].
  exact (submissions_name_validated_files es c A H).
Defined.

End Names.

Section Hints.
Import JS ProcessingSettings.

(** X21.  Whenever the hint "Password must be at least 6 characters" is
    shown, Save Settings is disabled and the request for a valid password is
    shown as well; and Save Settings is disabled only while encryption is
    on. *)
Theorem hint_implies_disabled (s : State) :
  (shows_short_password_hint s = true ->
   save_disabled s = true /\ shows_password_error s = true)
  /\ (save_disabled s = true ->
      encryptEnabled s = true /\ shows_password_error s = true).
Proof.
  unfold shows_short_password_hint, save_disabled, shows_password_error.
  split.
  - intros H. apply andb_true_iff in H. destruct H as [H L].
    apply andb_true_iff in H. destruct H as [E _].
    apply Nat.ltb_lt in L.
    rewrite (short_password_blocks s E L), E. now split.
  - intros H. apply negb_true_iff in H.
    destruct (encryptEnabled s) eqn:E.
    + rewrite H. now split.
    + rewrite canProceed_plain in H by exact E. discriminate.
Qed.

Lemma hint_implies_disabled_witness :
  let s := inputs [ToggleEncryption; TypePassword (JS.lit "abc")] initial in
  shows_short_password_hint s = true
  /\ save_disabled s = true.
Proof.
  intros s.
  assert (H : shows_short_password_hint s = true) by reflexivity.
  split; [exact H|].
  exact (proj1 (proj1 (hint_implies_disabled s) H)).
Defined.

End Hints.
